(** * maubot-msc-resolver: a shallow embedding of [msc_resolver.py]

    The plugin watches room messages for references of the form
    [msc<digits>], looks every distinct reference up on the GitHub issue
    tracker and answers with one notice that links the proposals found.

    The embedding follows the file top to bottom: the module constants,
    the [MSC] record, the pattern given to [command.passive], then the
    three methods of [MSCResolverBot].  Effects (logging, HTTP requests,
    messages sent to the room) are recorded in a trace; exceptions are
    explicit results. *)

From Stdlib Require Import List String Ascii Bool Arith ZArith Lia.
Import ListNotations.

Open Scope list_scope.
Open Scope string_scope.

Set Warnings "-register-all".

(** ** Python values and exceptions *)

(** The value [response.json()] hands back: a decoded JSON document.  A
    [dict] is kept as an association list, looked up from the front.
    Floats are not told apart from integers: no operation of the plugin
    distinguishes them. *)
Inductive pyval : Type :=
| PNone
| PBool (b : bool)
| PInt (n : Z)
| PStr (s : string)
| PList (items : list pyval)
| PDict (entries : list (string * pyval)).

(** The exception classes that can travel through the handler.
    [ContentTypeError] and [TooManyRedirects] are subclasses of aiohttp's
    [ClientResponseError]; [ClientConnectionError] (connection refused,
    reset, DNS failure) and [TimeoutError] are not. *)
Inductive exn : Type :=
| ClientResponseError (status : Z)
| ContentTypeError
| TooManyRedirects
| ClientConnectionError
| TimeoutError
| JSONDecodeError
| AttributeError
| TypeError
| IndexError.

(** [isinstance(e, ClientResponseError)], which is what the handler's
    [except ClientResponseError] clause tests. *)
Definition is_ClientResponseError (e : exn) : bool :=
  match e with
  | ClientResponseError _ | ContentTypeError | TooManyRedirects => true
  | ClientConnectionError | TimeoutError | JSONDecodeError
  | AttributeError | TypeError | IndexError => false
  end.

Inductive result (A : Type) : Type :=
| Ok (a : A)
| Raise (e : exn).
Arguments Ok {A} a.
Arguments Raise {A} e.

(** ** The outside world *)

(** [mautrix.types.event.MessageType]. *)
Inductive MessageType : Type :=
| TEXT | EMOTE | NOTICE | IMAGE | STICKER | VIDEO | AUDIO | FILE | LOCATION
| OtherType (name : string).

Definition MessageType_eqb (a b : MessageType) : bool :=
  match a, b with
  | TEXT, TEXT | EMOTE, EMOTE | NOTICE, NOTICE | IMAGE, IMAGE
  | STICKER, STICKER | VIDEO, VIDEO | AUDIO, AUDIO | FILE, FILE
  | LOCATION, LOCATION => true
  | OtherType x, OtherType y => String.eqb x y
  | _, _ => false
  end.

(** The fields of a [MessageEvent] the handler reads.  [get_edit] is the
    value of [event.content.get_edit()]: the id of the event this one
    replaces, or [None]. *)
Record MessageEventContent : Type := {
  msgtype : MessageType;
  body : string;
  get_edit : option string
}.

Record MessageEvent : Type := {
  sender : string;
  room_id : string;
  event_id : string;
  content : MessageEventContent
}.

(** What [await self.http.get(url)] gives when it does not raise: the
    status line and the outcome of the later [await response.json()]. *)
Record ClientResponse : Type := {
  status : Z;
  json : result pyval
}.

(** The collaborators a plugin instance reaches through [self], and the
    two library functions whose text is not in this repository:
    [markdown.render] and the interpreter's [str()] on a value that is
    not already a string (used when an f-string interpolates it). *)
Record Plugin : Type := {
  client_mxid : string;
  http_get : string -> result ClientResponse;
  markdown_render : string -> string;
  str_nonstring : pyval -> string
}.

(** Everything observable the plugin does. [SendMessage] is the client's
    [send_message_event] with the message type made explicit. *)
Inductive effect : Type :=
| LogDebug (msg : string)
| LogError (msg : string) (arg : exn)
| HttpGet (url : string)
| SendMessage (room : string) (mt : MessageType) (text html : string).

(** ** A trace-and-exception monad *)

Definition M (A : Type) : Type := (list effect * result A)%type.

Definition ret {A} (a : A) : M A := ([], Ok a).

Definition bind {A B} (m : M A) (k : A -> M B) : M B :=
  match m with
  | (t, Ok a) => let (t', r) := k a in ((t ++ t')%list, r)
  | (t, Raise e) => (t, Raise e)
  end.

Definition perform (e : effect) : M unit := ([e], Ok tt).

Definition raise {A} (e : exn) : M A := ([], Raise e).

Definition lift {A} (r : result A) : M A := ([], r).

(** The body of a [try] block: the exception, if any, is handed to the
    code that follows instead of unwinding further. *)
Definition attempt {A} (m : M A) : M (result A) :=
  let (t, r) := m in (t, Ok r).

Definition trace {A} (m : M A) : list effect := fst m.
Definition outcome {A} (m : M A) : result A := snd m.

Declare Scope py_scope.
Delimit Scope py_scope with py.
Notation "x <- m ;; k" := (bind m (fun x => k))
  (at level 61, m at next level, right associativity) : py_scope.
Notation "m ;;; k" := (bind m (fun _ => k))
  (at level 61, right associativity) : py_scope.
Open Scope py_scope.

(** ** Module constants and the [MSC] dataclass *)

Definition MSC_REPO : string := "matrix-org/matrix-spec-proposals".
Definition PROPOSAL_LABEL : string := "proposal".

(** [attr.dataclass] checks no types, so [title] holds whatever the
    response carried under ["title"]. *)
Record MSC : Type := {
  id : string;
  title : pyval;
  author : string;
  url : string
}.

(** ** The pattern [r"msc(\d{1,4})"], case-insensitive, [multiple=True] *)

(** Message bodies are strings of 8-bit characters here.  On the ASCII
    range [\d] is [0-9] and a literal letter matches itself in either
    case; that is what the definitions below implement.  Beyond ASCII
    Python's [\d] also accepts the other Unicode decimal digits, and a
    case-insensitive [s] also accepts U+017F: bodies with such characters
    are outside this model. *)
Definition is_digit (c : ascii) : bool :=
  Nat.leb 48 (nat_of_ascii c) && Nat.leb (nat_of_ascii c) 57.

Definition lit_ci (lower upper c : ascii) : bool :=
  Ascii.eqb c lower || Ascii.eqb c upper.

(** Greedy [\d{0,n}]: the longest run of at most [n] digits at the
    front of [s]. *)
Fixpoint take_digits (n : nat) (s : string) : string :=
  match n, s with
  | S k, String c tl => if is_digit c then String c (take_digits k tl) else ""
  | _, _ => ""
  end.

(** One attempt of the pattern at the very start of [s]: group 1 when it
    matches.  Nothing follows the group in the pattern, so the greedy
    repetition never has to give a digit back. *)
Definition match_here (s : string) : option string :=
  match s with
  | String a (String b (String c rest)) =>
      if lit_ci "m" "M" a && lit_ci "s" "S" b && lit_ci "c" "C" c then
        match take_digits 4 rest with
        | "" => None
        | ds => Some ds
        end
      else None
  | _ => None
  end.

(** [regex.finditer]: leftmost matches, scanning resumes where the
    previous match ended.  [skip] counts the characters of [s] that still
    belong to the previous match. *)
Fixpoint finditer_from (skip : nat) (s : string) : list string :=
  match s with
  | "" => []
  | String _ tl =>
      match skip with
      | S k => finditer_from k tl
      | O =>
          match match_here s with
          | Some ds => ds :: finditer_from (2 + String.length ds) tl
          | None => finditer_from 0 tl
          end
      end
  end.

Definition finditer (s : string) : list string := finditer_from 0 s.

(** The [match] argument maubot builds for [multiple=True]: one tuple per
    match, the searched text first, then the groups. *)
Definition passive_match (data : string) : list (string * string) :=
  map (fun g => (data, g)) (finditer data).

(** ** Dynamic operations on decoded JSON *)

Fixpoint assoc (key : string) (entries : list (string * pyval)) : option pyval :=
  match entries with
  | [] => None
  | (k, v) :: tl => if String.eqb k key then Some v else assoc key tl
  end.

(** [obj.get(key, default)]: only a [dict] has the method. *)
Definition py_get (obj : pyval) (key : string) (default : pyval) : result pyval :=
  match obj with
  | PDict entries =>
      match assoc key entries with
      | Some v => Ok v
      | None => Ok default
      end
  | _ => Raise AttributeError
  end.

Fixpoint chars (s : string) : list pyval :=
  match s with
  | "" => []
  | String c tl => PStr (String c "") :: chars tl
  end.

(** [for x in obj]: the items of a list, the keys of a dict, the
    characters of a string; the other values are not iterable. *)
Definition py_iter (obj : pyval) : result (list pyval) :=
  match obj with
  | PList items => Ok items
  | PDict entries => Ok (map (fun kv => PStr (fst kv)) entries)
  | PStr s => Ok (chars s)
  | PNone | PBool _ | PInt _ => Raise TypeError
  end.

(** [v == s] for a string [s]: true for that very string only. *)
Definition py_eq_str (v : pyval) (s : string) : bool :=
  match v with
  | PStr t => String.eqb t s
  | _ => false
  end.

(** ["@" + v]: concatenation needs a string on the right. *)
Definition py_concat_str (prefix : string) (v : pyval) : result string :=
  match v with
  | PStr s => Ok (prefix ++ s)
  | _ => Raise TypeError
  end.

(** An f-string field [{v}]. *)
Definition py_str (self : Plugin) (v : pyval) : string :=
  match v with
  | PStr s => s
  | _ => str_nonstring self v
  end.

(** ** [MSCResolverBot._resolve_msc] *)

(** [response.raise_for_status()]: aiohttp raises for a status of 400 or
    more and does nothing below. *)
Definition raise_for_status (response : ClientResponse) : M unit :=
  if (400 <=? status response)%Z
  then raise (ClientResponseError (status response))
  else ret tt.

(** Lines 113-117: the scan over the labels, left at the first label
    named [PROPOSAL_LABEL]. *)
Fixpoint scan_labels (labels : list pyval) : result bool :=
  match labels with
  | [] => Ok false
  | label :: tl =>
      match py_get label "name" PNone with
      | Ok name => if py_eq_str name PROPOSAL_LABEL then Ok true else scan_labels tl
      | Raise e => Raise e
      end
  end.

Definition issue_api_url (msc_id : string) : string :=
  "https://api.github.com/repos/" ++ MSC_REPO ++ "/issues/" ++ msc_id.

Definition issue_url (msc_id : string) : string :=
  "https://github.com/" ++ MSC_REPO ++ "/issues/" ++ msc_id.

Definition _resolve_msc (self : Plugin) (msc_id : string) : M (option MSC) :=
  perform (HttpGet (issue_api_url msc_id)) ;;;
  response <- lift (http_get self (issue_api_url msc_id)) ;;
  (if (status response =? 200)%Z then ret tt else raise_for_status response) ;;;
  response_body <- lift (json response) ;;
  labels <- lift (py_get response_body "labels" (PList [])) ;;
  labels <- lift (py_iter labels) ;;
  is_msc <- lift (scan_labels labels) ;;
  if negb is_msc then ret None
  else
    msc_title <- lift (py_get response_body "title" (PStr "Unknown title")) ;;
    user <- lift (py_get response_body "user" (PDict [])) ;;
    login <- lift (py_get user "login" (PStr "Unknown author")) ;;
    msc_author <- lift (py_concat_str "@" login) ;;
    ret (Some {| id := msc_id;
                 title := msc_title;
                 author := msc_author;
                 url := issue_url msc_id |}).

(** ** [MSCResolverBot._format_msc] *)

Definition _format_msc (self : Plugin) (msc : MSC) (with_id : bool) : string :=
  let formatted_str :=
    "[" ++ py_str self (title msc) ++ "](" ++ url msc ++ ") by " ++ author msc in
  if with_id then "MSC" ++ id msc ++ ": " ++ formatted_str
  else formatted_str.

(** ** [MSCResolverBot.respond_to_message] *)

(** [msc_id not in msc_ids] compares strings with [==]. *)
Definition str_in (x : string) (l : list string) : bool :=
  existsb (String.eqb x) l.

(** Lines 53-56: the loop that collects each id once, in order. *)
Fixpoint collect_ids (matches : list (string * string)) (msc_ids : list string)
  : list string :=
  match matches with
  | [] => msc_ids
  | (_, msc_id) :: tl =>
      if negb (str_in msc_id msc_ids)
      then collect_ids tl (msc_ids ++ [msc_id])%list
      else collect_ids tl msc_ids
  end.

Definition resolving_msg (msc_id : string) (event : MessageEvent) : string :=
  "Resolving MSC" ++ msc_id ++ " in room " ++ room_id event
  ++ " in response to " ++ event_id event.

(** Lines 59-72: the resolution loop.  [None] stands for the [return]
    inside the [except] clause, [Some mscs] for the loop running to its
    end. *)
Fixpoint resolve_each (self : Plugin) (event : MessageEvent)
         (msc_ids : list string) (mscs : list MSC) : M (option (list MSC)) :=
  match msc_ids with
  | [] => ret (Some mscs)
  | msc_id :: tl =>
      perform (LogDebug (resolving_msg msc_id event)) ;;;
      r <- attempt (_resolve_msc self msc_id) ;;
      match r with
      | Ok None => resolve_each self event tl mscs
      | Ok (Some msc) => resolve_each self event tl (mscs ++ [msc])%list
      | Raise e =>
          if is_ClientResponseError e then
            perform (LogError "Failed to query GitHub's API:" e) ;;;
            ret None
          else raise e
      end
  end.

Definition newline : string := String (ascii_of_nat 10) "".

(** [client.send_notice(room, text, html)] sends an [m.notice]. *)
Definition send_notice (room text html : string) : M unit :=
  perform (SendMessage room NOTICE text html).

(** [msgtype in (MessageType.TEXT, MessageType.EMOTE)]. *)
Definition in_text_or_emote (mt : MessageType) : bool :=
  MessageType_eqb mt TEXT || MessageType_eqb mt EMOTE.

(** Lines 79-89: the text of the reply.  [mscs[0]] raises on an empty
    list; the handler never gets there with one. *)
Definition compose_message (self : Plugin) (mscs : list MSC) : result string :=
  if (1 <? List.length mscs)%nat then
    Ok (String.concat (newline ++ newline)
                      (map (fun msc => _format_msc self msc true) mscs))
  else
    match mscs with
    | first :: _ => Ok (_format_msc self first false)
    | [] => Raise IndexError
    end.

Definition respond_to_message (self : Plugin) (event : MessageEvent)
           (match_ : list (string * string)) : M unit :=
  if String.eqb (sender event) (client_mxid self) then ret tt
  else match get_edit (content event) with
  | Some _ => ret tt
  | None =>
  if negb (in_text_or_emote (msgtype (content event))) then ret tt
  else
    let msc_ids := collect_ids match_ [] in
    resolved <- resolve_each self event msc_ids [] ;;
    match resolved with
    | None => ret tt
    | Some mscs =>
        if (List.length mscs =? 0)%nat then
          perform (LogDebug "No suitable MSCs found. Not responding")
        else
          message <- lift (compose_message self mscs) ;;
          perform (LogDebug ("Sending response to event " ++ event_id event)) ;;;
          send_notice (room_id event) message (markdown_render self message)
    end
  end.

(** The Extractor: what the decorator and lines 53-56 make of a body. *)
Definition extract (data : string) : list string :=
  collect_ids (passive_match data) [].

(** ** Reading a trace *)

Definition is_reply (e : effect) : bool :=
  match e with SendMessage _ _ _ _ => true | _ => false end.

(** The messages posted to rooms, in order. *)
Definition replies (t : list effect) : list effect := filter is_reply t.

(** The URLs requested from the tracker, in order. *)
Definition requests (t : list effect) : list string :=
  flat_map (fun e => match e with HttpGet u => [u] | _ => [] end) t.

(** The calls to [self.log.error], in order. *)
Definition error_reports (t : list effect) : list effect :=
  filter (fun e => match e with LogError _ _ => true | _ => false end) t.

(** What one turn of the resolution loop always does first. *)
Definition lookup_events (event : MessageEvent) (msc_id : string) : list effect :=
  [LogDebug (resolving_msg msc_id event); HttpGet (issue_api_url msc_id)].

(** The records the tracker yields for a list of ids, skipping the ids
    that resolve to [None]. *)
Definition records_of (self : Plugin) (msc_ids : list string) : list MSC :=
  flat_map (fun i => match outcome (_resolve_msc self i) with
                     | Ok (Some msc) => [msc]
                     | _ => []
                     end) msc_ids.

(** Whether the tracker yields a record for an id. *)
Definition resolves_to_record (self : Plugin) (msc_id : string) : bool :=
  match outcome (_resolve_msc self msc_id) with
  | Ok (Some _) => true
  | _ => false
  end.

(** Following the spec's words for the Extractor: every value once, at
    the place of its first occurrence. *)
Fixpoint first_occurrences (l : list string) : list string :=
  match l with
  | [] => []
  | x :: tl => x :: filter (fun y => negb (String.eqb x y)) (first_occurrences tl)
  end.

(** A string made of decimal digits only. *)
Fixpoint all_digits (s : string) : bool :=
  match s with
  | "" => true
  | String c tl => is_digit c && all_digits tl
  end.

(** The label objects of a decoded issue: the list under ["labels"], or
    the empty list when the key is missing. *)
Definition has_labels (entries : list (string * pyval)) (labels : list pyval) : Prop :=
  assoc "labels" entries = Some (PList labels)
  \/ (assoc "labels" entries = None /\ labels = []).

(** A label object, and whether it is the proposal label. *)
Definition label_named (name : string) (label : pyval) : Prop :=
  exists fields, label = PDict fields /\ assoc "name" fields = Some (PStr name).

Definition label_not_proposal (label : pyval) : Prop :=
  exists fields,
    label = PDict fields /\ assoc "name" fields <> Some (PStr PROPOSAL_LABEL).

(** ** Notions used in the statements *)

(** The three guards of lines 37-48 all let the event through. *)
Definition accepted (self : Plugin) (event : MessageEvent) : Prop :=
  sender event <> client_mxid self
  /\ get_edit (content event) = None
  /\ (msgtype (content event) = TEXT \/ msgtype (content event) = EMOTE).

(** A JSON object. *)
Definition is_object (v : pyval) : Prop := exists fields, v = PDict fields.

(** Lines 123-133, once the issue is known to be a proposal. *)
Definition build_msc (msc_id : string) (response_body : pyval) : result MSC :=
  match py_get response_body "title" (PStr "Unknown title") with
  | Raise e => Raise e
  | Ok msc_title =>
      match py_get response_body "user" (PDict []) with
      | Raise e => Raise e
      | Ok user =>
          match py_get user "login" (PStr "Unknown author") with
          | Raise e => Raise e
          | Ok login =>
              match py_concat_str "@" login with
              | Raise e => Raise e
              | Ok msc_author =>
                  Ok {| id := msc_id; title := msc_title;
                        author := msc_author; url := issue_url msc_id |}
              end
          end
      end
  end.

Definition starts_with_digit (s : string) : bool :=
  match s with
  | "" => false
  | String c _ => is_digit c
  end.

(** [x] stands in [data] right after the three letters m, s, c, each in
    either case, and stops short of four characters only where the
    digits stop. *)
Definition follows_msc (data x : string) : Prop :=
  exists before a b c rest,
    data = before ++ String a (String b (String c (x ++ rest)))
    /\ lit_ci "m" "M" a && lit_ci "s" "S" b && lit_ci "c" "C" c = true
    /\ (String.length x < 4 -> starts_with_digit rest = false).

(** ** Sample trackers and events *)

(** A decoded issue with the given label names, title and creator. *)
Definition issue_json (label_names : list string) (issue_title login : string)
  : pyval :=
  PDict [("labels", PList (map (fun n => PDict [("name", PStr n)]) label_names));
         ("title", PStr issue_title);
         ("user", PDict [("login", PStr login)])].

(** A plugin instance in front of a tracker that answers [answer]. *)
Definition sample_plugin (answer : string -> result ClientResponse) : Plugin :=
  {| client_mxid := "@mscbot:example.org";
     http_get := answer;
     markdown_render := fun text => text;
     str_nonstring := fun _ => "" |}.

(** Every issue exists and is the same proposal. *)
Definition answer_proposal (_ : string) : result ClientResponse :=
  Ok {| status := 200;
        json := Ok (issue_json ["proposal"] "Example" "alice") |}.

(** Every issue exists and is a proposal, with neither title nor
    creator in the response. *)
Definition answer_bare_proposal (_ : string) : result ClientResponse :=
  Ok {| status := 200;
        json := Ok (PDict [("labels",
                            PList [PDict [("name", PStr "proposal")]])]) |}.

(** Every issue exists and is an ordinary issue whose creator is [null]. *)
Definition answer_plain_issue (_ : string) : result ClientResponse :=
  Ok {| status := 200;
        json := Ok (PDict [("labels", PList [PDict [("name", PStr "bug")]]);
                           ("user", PNone)]) |}.

(** Every request is answered with the given status and a JSON object
    that describes the status instead of an issue. *)
Definition answer_status (code : Z) (_ : string) : result ClientResponse :=
  Ok {| status := code;
        json := Ok (PDict [("message", PStr "see documentation_url")]) |}.

(** The tracker cannot be reached at all. *)
Definition answer_unreachable (_ : string) : result ClientResponse :=
  Raise ClientConnectionError.

(** Issue 1 is a proposal, every other issue answers 404. *)
Definition answer_only_1 (request_url : string) : result ClientResponse :=
  if String.eqb request_url (issue_api_url "1") then answer_proposal request_url
  else answer_status 404 request_url.

Definition sample_event (mt : MessageType) (text : string) : MessageEvent :=
  {| sender := "@alice:example.org";
     room_id := "!room:example.org";
     event_id := "$event";
     content := {| msgtype := mt; body := text; get_edit := None |} |}.

(** Every issue exists and is a proposal whose creator is [null]. *)
Definition answer_null_creator (_ : string) : result ClientResponse :=
  Ok {| status := 200;
        json := Ok (PDict [("labels", PList [PDict [("name", PStr "proposal")]]);
                           ("title", PStr "Example");
                           ("user", PNone)]) |}.

(** Issue 1 is a proposal, every other issue is an ordinary issue. *)
Definition answer_1_among_issues (request_url : string) : result ClientResponse :=
  if String.eqb request_url (issue_api_url "1") then answer_proposal request_url
  else answer_plain_issue request_url.

(** Every issue is a proposal whose label list goes on, after the
    proposal label, with an entry that is not an object. *)
Definition answer_trailing_label (_ : string) : result ClientResponse :=
  Ok {| status := 200;
        json := Ok (PDict [("labels", PList [PDict [("name", PStr "bug")];
                                             PDict [("name", PStr "proposal")];
                                             PStr "wontfix"])]) |}.

(** Every issue exists and has [null] under ["labels"]. *)
Definition answer_null_labels (_ : string) : result ClientResponse :=
  Ok {| status := 200; json := Ok (PDict [("labels", PNone)]) |}.

(** The body of every answer is the JSON array [[]]. *)
Definition answer_array (_ : string) : result ClientResponse :=
  Ok {| status := 200; json := Ok (PList []) |}.

(** The text has, somewhere, the letters m, s, c in either case followed
    by a digit: [before] is what precedes them and [digits_on] starts at
    that digit. *)
Definition mentions_msc_at (data before digits_on : string) : Prop :=
  exists a b c d rest,
    digits_on = String d rest
    /\ data = before ++ String a (String b (String c digits_on))
    /\ lit_ci "m" "M" a && lit_ci "s" "S" b && lit_ci "c" "C" c = true
    /\ is_digit d = true.

(** Following the spec's glossary: a fetch failure is any non-success
    outcome of the remote lookup, a network error as well as an error
    status. *)
Definition fetch_failure (e : exn) : bool :=
  match e with
  | ClientResponseError _ | ContentTypeError | TooManyRedirects
  | ClientConnectionError | TimeoutError => true
  | JSONDecodeError | AttributeError | TypeError | IndexError => false
  end.

(** * Properties *)

(** ** Basic facts about the monad and the resolver *)

Lemma bind_perform {A} (e : effect) (k : unit -> M A) :
  bind (perform e) k = (e :: trace (k tt), outcome (k tt)).
Proof.
  unfold bind, perform, trace, outcome. destruct (k tt); reflexivity.
Qed.

Lemma bind_lift_ok {A B} (a : A) (k : A -> M B) : bind (lift (Ok a)) k = k a.
Proof.
  unfold bind, lift. destruct (k a); reflexivity.
Qed.

Lemma bind_lift_raise {A B} (e : exn) (k : A -> M B) :
  bind (lift (Raise e)) k = ([], Raise e).
Proof. reflexivity. Qed.

Lemma bind_ret {A B} (a : A) (k : A -> M B) : bind (ret a) k = k a.
Proof. apply bind_lift_ok. Qed.

Lemma M_eta {A} (m : M A) : m = (trace m, outcome m).
Proof. destruct m; reflexivity. Qed.

Ltac step_lift :=
  match goal with
  | |- context [bind (lift ?r) _] =>
      let E := fresh "E" in
      destruct r eqn:E;
      [ rewrite bind_lift_ok | rewrite bind_lift_raise ]
  end.

(** One call of [_resolve_msc] sends exactly one request, whatever the
    tracker answers: there is no second attempt. *)
Lemma resolve_trace (self : Plugin) (msc_id : string) :
  trace (_resolve_msc self msc_id) = [HttpGet (issue_api_url msc_id)].
Proof.
  unfold _resolve_msc. rewrite bind_perform. unfold trace at 1. cbn [fst].
  f_equal. unfold trace.
  step_lift; [|reflexivity].
  destruct (status a =? 200)%Z.
  - rewrite bind_ret.
    repeat (step_lift; [|reflexivity]).
    destruct (negb a3); [reflexivity|].
    repeat (step_lift; [|reflexivity]).
    reflexivity.
  - unfold raise_for_status. destruct (400 <=? status a)%Z; [reflexivity|].
    rewrite bind_ret.
    repeat (step_lift; [|reflexivity]).
    destruct (negb a3); [reflexivity|].
    repeat (step_lift; [|reflexivity]).
    reflexivity.
Qed.

Lemma resolve_eta (self : Plugin) (msc_id : string) :
  _resolve_msc self msc_id =
  ([HttpGet (issue_api_url msc_id)], outcome (_resolve_msc self msc_id)).
Proof.
  rewrite (M_eta (_resolve_msc self msc_id)) at 1. now rewrite resolve_trace.
Qed.

(** ** The resolution loop *)

Section ResolutionLoop.

Variable self : Plugin.
Variable event : MessageEvent.

Lemma lookup_events_requests (msc_ids : list string) :
  requests (flat_map (lookup_events event) msc_ids) = map issue_api_url msc_ids.
Proof.
  induction msc_ids as [|i tl IH]; [reflexivity|]. cbn. now rewrite <- IH.
Qed.

Lemma lookup_events_replies (msc_ids : list string) :
  replies (flat_map (lookup_events event) msc_ids) = [].
Proof.
  induction msc_ids as [|i tl IH]; [reflexivity|]. exact IH.
Qed.

Lemma lookup_events_error_reports (msc_ids : list string) :
  error_reports (flat_map (lookup_events event) msc_ids) = [].
Proof.
  induction msc_ids as [|i tl IH]; [reflexivity|]. exact IH.
Qed.

(** One turn of the loop, with the resolver's single request made
    explicit. *)
Lemma resolve_each_cons (msc_id : string) (tl : list string) (mscs : list MSC) :
  resolve_each self event (msc_id :: tl) mscs =
  match outcome (_resolve_msc self msc_id) with
  | Ok None =>
      let rest := resolve_each self event tl mscs in
      ((lookup_events event msc_id ++ trace rest)%list, outcome rest)
  | Ok (Some msc) =>
      let rest := resolve_each self event tl (mscs ++ [msc])%list in
      ((lookup_events event msc_id ++ trace rest)%list, outcome rest)
  | Raise e =>
      if is_ClientResponseError e
      then ((lookup_events event msc_id
               ++ [LogError "Failed to query GitHub's API:" e])%list, Ok None)
      else (lookup_events event msc_id, Raise e)
  end.
Proof.
  cbn [resolve_each]. rewrite bind_perform.
  pose proof (resolve_trace self msc_id) as Ht.
  destruct (_resolve_msc self msc_id) as [t r].
  unfold trace in Ht; cbn [fst] in Ht; subst t.
  unfold attempt, bind, outcome at 2; cbn [snd].
  destruct r as [[msc|]|e].
  - destruct (resolve_each self event tl (mscs ++ [msc])%list); reflexivity.
  - destruct (resolve_each self event tl mscs); reflexivity.
  - destruct (is_ClientResponseError e); reflexivity.
Qed.

(** When no lookup raises, the loop visits every id in order and hands
    back the records found, in that order. *)
Lemma resolve_each_all_ok (msc_ids : list string) :
  Forall (fun i => exists r, outcome (_resolve_msc self i) = Ok r) msc_ids ->
  forall mscs,
    resolve_each self event msc_ids mscs =
    (flat_map (lookup_events event) msc_ids,
     Ok (Some (mscs ++ records_of self msc_ids)%list)).
Proof.
  induction 1 as [|i tl [r Hr] _ IH]; intros mscs.
  - cbn. now rewrite app_nil_r.
  - rewrite resolve_each_cons. unfold records_of in *. cbn [flat_map].
    rewrite Hr. destruct r as [msc|]; cbn zeta; rewrite IH; unfold trace, outcome; cbn [fst snd].
    + now rewrite <- app_assoc.
    + reflexivity.
Qed.

(** When the lookup of [x] is the first to raise, the loop stops there:
    the ids after [x] are never requested. *)
Lemma resolve_each_raises (before after : list string) (x : string) (e : exn) :
  Forall (fun i => exists r, outcome (_resolve_msc self i) = Ok r) before ->
  outcome (_resolve_msc self x) = Raise e ->
  forall mscs,
    resolve_each self event (before ++ x :: after) mscs =
    if is_ClientResponseError e
    then ((flat_map (lookup_events event) (before ++ [x])
             ++ [LogError "Failed to query GitHub's API:" e])%list, Ok None)
    else (flat_map (lookup_events event) (before ++ [x]), Raise e).
Proof.
  intros Hbefore Hx.
  induction Hbefore as [|i tl [r Hr] _ IH]; intros mscs.
  - cbn [app]. rewrite resolve_each_cons, Hx. cbn [flat_map].
    rewrite app_nil_r. reflexivity.
  - cbn [app]. rewrite resolve_each_cons, Hr.
    destruct r as [msc|]; cbn zeta; rewrite IH;
      destruct (is_ClientResponseError e); reflexivity.
Qed.

(** The loop itself posts nothing. *)
Lemma resolve_each_no_reply (msc_ids : list string) :
  forall mscs, replies (trace (resolve_each self event msc_ids mscs)) = [].
Proof.
  induction msc_ids as [|i tl IH]; intros mscs; [reflexivity|].
  rewrite resolve_each_cons.
  destruct (outcome (_resolve_msc self i)) as [[msc|]|e]; cbn zeta.
  - unfold trace at 1; cbn [fst]. unfold replies in *.
    rewrite filter_app, IH. reflexivity.
  - unfold trace at 1; cbn [fst]. unfold replies in *.
    rewrite filter_app, IH. reflexivity.
  - destruct (is_ClientResponseError e); reflexivity.
Qed.

End ResolutionLoop.

(** ** The handler as a whole *)

(** What the handler does with an event it accepts, read off the
    result of the resolution loop. *)
Lemma respond_accepted (self : Plugin) (event : MessageEvent)
      (match_ : list (string * string)) :
  accepted self event ->
  respond_to_message self event match_ =
  let loop := resolve_each self event (collect_ids match_ []) [] in
  match outcome loop with
  | Raise e => (trace loop, Raise e)
  | Ok None => (trace loop, Ok tt)
  | Ok (Some []) =>
      ((trace loop ++ [LogDebug "No suitable MSCs found. Not responding"])%list,
       Ok tt)
  | Ok (Some mscs) =>
      match compose_message self mscs with
      | Ok message =>
          ((trace loop
              ++ [LogDebug ("Sending response to event " ++ event_id event);
                  SendMessage (room_id event) NOTICE message
                              (markdown_render self message)])%list,
           Ok tt)
      | Raise e => (trace loop, Raise e)
      end
  end.
Proof.
  intros (Hsender & Hedit & Htype). unfold respond_to_message.
  apply String.eqb_neq in Hsender. rewrite Hsender, Hedit.
  replace (in_text_or_emote (msgtype (content event))) with true
    by (destruct Htype as [-> | ->]; reflexivity).
  cbn [negb]. cbn zeta.
  destruct (resolve_each self event (collect_ids match_ []) []) as [t [[mscs|]|e]];
    unfold bind, trace, outcome; cbn [fst snd].
  - destruct mscs as [|first others].
    + reflexivity.
    + cbn [List.length Nat.eqb].
      destruct (compose_message self (first :: others));
        unfold lift, perform, send_notice, perform; cbn [app];
        rewrite ?app_nil_r; reflexivity.
  - unfold ret. now rewrite app_nil_r.
  - reflexivity.
Qed.

(** Whatever the handler posts is a notice, sent to the room the event
    came from, with the rendering of its text beside it. *)
Lemma respond_replies (self : Plugin) (event : MessageEvent)
      (match_ : list (string * string)) (e : effect) :
  In e (replies (trace (respond_to_message self event match_))) ->
  exists text, e = SendMessage (room_id event) NOTICE text (markdown_render self text).
Proof.
  unfold respond_to_message.
  destruct (String.eqb (sender event) (client_mxid self)); [intros []|].
  destruct (get_edit (content event)); [intros []|].
  destruct (negb (in_text_or_emote (msgtype (content event)))); [intros []|].
  cbn zeta.
  pose proof (resolve_each_no_reply self event (collect_ids match_ []) []) as Hloop.
  destruct (resolve_each self event (collect_ids match_ []) []) as [t [[mscs|]|err]];
    unfold trace in *; cbn [fst] in Hloop; unfold bind; cbn [fst].
  - destruct (List.length mscs =? 0)%nat.
    + cbn [perform fst]. unfold replies in *. rewrite filter_app, Hloop. intros [].
    + destruct (compose_message self mscs) as [message|err]; cbn [lift bind fst].
      * unfold replies in *. unfold perform, send_notice, perform. cbn [fst app].
        rewrite filter_app, Hloop. cbn.
        intros [<- | []]. now exists message.
      * unfold replies in *. rewrite filter_app, Hloop. intros [].
  - cbn [ret fst]. unfold replies in *. rewrite filter_app, Hloop. intros [].
  - rewrite Hloop. intros [].
Qed.

(** ** The label scan *)

Lemma scan_labels_none (labels : list pyval) :
  Forall label_not_proposal labels -> scan_labels labels = Ok false.
Proof.
  induction 1 as [|label tl (fields & -> & Hname) _ IH]; [reflexivity|].
  cbn [scan_labels py_get].
  destruct (assoc "name" fields) as [v|] eqn:E; cbn [py_eq_str]; [|exact IH].
  destruct v; try exact IH. cbn [py_eq_str].
  destruct (String.eqb s PROPOSAL_LABEL) eqn:Es; [|exact IH].
  apply String.eqb_eq in Es. subst s. now contradiction Hname.
Qed.

Lemma scan_labels_found (labels : list pyval) :
  Forall is_object labels ->
  Exists (label_named PROPOSAL_LABEL) labels ->
  scan_labels labels = Ok true.
Proof.
  induction 1 as [|label tl [fields ->] _ IH]; intros Hex.
  - inversion Hex.
  - cbn [scan_labels py_get].
    destruct (assoc "name" fields) as [v|] eqn:E.
    + destruct (py_eq_str v PROPOSAL_LABEL) eqn:Ev; [reflexivity|].
      inversion Hex as [? ? (fields' & Heq & Hname)|]; subst; [|now apply IH].
      injection Heq as <-. rewrite Hname in E. injection E as <-.
      cbn in Ev. discriminate.
    + cbn [py_eq_str].
      inversion Hex as [? ? (fields' & Heq & Hname)|]; subst; [|now apply IH].
      injection Heq as <-. congruence.
Qed.

Lemma scan_labels_true (labels : list pyval) :
  scan_labels labels = Ok true -> Exists (label_named PROPOSAL_LABEL) labels.
Proof.
  induction labels as [|label tl IH]; [discriminate|].
  cbn [scan_labels]. destruct label; try discriminate. cbn [py_get].
  destruct (assoc "name" entries) as [v|] eqn:E.
  - destruct (py_eq_str v PROPOSAL_LABEL) eqn:Ev.
    + intros _. left. exists entries. split; [reflexivity|].
      destruct v; try discriminate. cbn in Ev.
      apply String.eqb_eq in Ev. now subst.
    + intros H. right. now apply IH.
  - cbn [py_eq_str]. intros H. right. now apply IH.
Qed.

(** ** The resolver on a response that passes the status check *)

(** A status below 400 gets past lines 108-109: 200 skips the call, and
    for the others [raise_for_status] does nothing. *)
Lemma resolve_below_400 (self : Plugin) (msc_id : string)
      (response : ClientResponse) (entries : list (string * pyval))
      (labels : list pyval) :
  http_get self (issue_api_url msc_id) = Ok response ->
  (status response < 400)%Z ->
  json response = Ok (PDict entries) ->
  has_labels entries labels ->
  outcome (_resolve_msc self msc_id) =
  match scan_labels labels with
  | Ok true =>
      match build_msc msc_id (PDict entries) with
      | Ok msc => Ok (Some msc)
      | Raise e => Raise e
      end
  | Ok false => Ok None
  | Raise e => Raise e
  end.
Proof.
  intros Hget Hstatus Hjson Hlabels.
  unfold _resolve_msc. rewrite bind_perform. unfold outcome at 1. cbn [snd].
  rewrite Hget, bind_lift_ok.
  assert ((if (status response =? 200)%Z then ret tt
           else raise_for_status response) = ret tt) as ->.
  { destruct (status response =? 200)%Z; [reflexivity|].
    unfold raise_for_status.
    destruct (400 <=? status response)%Z eqn:E; [|reflexivity].
    apply Z.leb_le in E. lia. }
  rewrite bind_ret, Hjson, bind_lift_ok.
  assert (py_get (PDict entries) "labels" (PList []) = Ok (PList labels)) as ->.
  { cbn [py_get]. destruct Hlabels as [-> | [-> ->]]; reflexivity. }
  rewrite bind_lift_ok. cbn [py_iter]. rewrite bind_lift_ok.
  destruct (scan_labels labels) as [[|]|e]; rewrite ?bind_lift_ok, ?bind_lift_raise;
    cbn [negb]; try reflexivity.
  unfold build_msc.
  repeat (step_lift; [|reflexivity]). reflexivity.
Qed.

(** ** The resolver: classification and failures *)

Lemma resolve_some_inv (self : Plugin) (msc_id : string) (msc : MSC) :
  outcome (_resolve_msc self msc_id) = Ok (Some msc) ->
  exists response response_body labels_value labels,
    http_get self (issue_api_url msc_id) = Ok response
    /\ json response = Ok response_body
    /\ py_get response_body "labels" (PList []) = Ok labels_value
    /\ py_iter labels_value = Ok labels
    /\ Exists (label_named PROPOSAL_LABEL) labels.
Proof.
  unfold _resolve_msc. rewrite bind_perform. unfold outcome at 1. cbn [snd].
  step_lift; [|discriminate].
  destruct ((if (status a =? 200)%Z then ret tt else raise_for_status a))
    as [t [[]|e]] eqn:Echeck; [|discriminate].
  assert (t = []) as ->.
  { destruct (status a =? 200)%Z; [now inversion Echeck|].
    unfold raise_for_status in Echeck.
    destruct (400 <=? status a)%Z; now inversion Echeck. }
  change ([], Ok tt) with (@ret unit tt). rewrite bind_ret.
  repeat (step_lift; [|discriminate]).
  destruct a3; cbn [negb]; [|discriminate].
  intros _. exists a, a0, a1, a2. repeat split; try assumption.
  now apply scan_labels_true.
Qed.

(** C4.  A status-200 response whose label list holds no label named
    [PROPOSAL_LABEL] makes the resolver return [None] without raising,
    whatever else the response carries; and whenever the resolver does
    return a record, the proposal label was among the labels of the
    response. *)
Theorem unlabelled_issue_is_no_record (self : Plugin) (msc_id : string) :
  (forall response entries labels,
      http_get self (issue_api_url msc_id) = Ok response ->
      status response = 200%Z ->
      json response = Ok (PDict entries) ->
      has_labels entries labels ->
      Forall label_not_proposal labels ->
      _resolve_msc self msc_id = ([HttpGet (issue_api_url msc_id)], Ok None))
  /\ (forall msc,
         outcome (_resolve_msc self msc_id) = Ok (Some msc) ->
         exists response response_body labels_value labels,
           http_get self (issue_api_url msc_id) = Ok response
           /\ json response = Ok response_body
           /\ py_get response_body "labels" (PList []) = Ok labels_value
           /\ py_iter labels_value = Ok labels
           /\ Exists (label_named PROPOSAL_LABEL) labels).
Proof.
  split.
  - intros response entries labels Hget Hstatus Hjson Hlabels Hnone.
    rewrite resolve_eta. f_equal.
    rewrite (resolve_below_400 self msc_id response entries labels);
      try assumption; [|lia].
    now rewrite scan_labels_none.
  - apply resolve_some_inv.
Qed.

Lemma unlabelled_issue_is_no_record_witness :
  Forall label_not_proposal [PDict [("name", PStr "bug")]]
  /\ _resolve_msc (sample_plugin answer_plain_issue) "7"
     = ([HttpGet (issue_api_url "7")], Ok None)
  /\ outcome (_resolve_msc (sample_plugin answer_proposal) "7")
     = Ok (Some {| id := "7"; title := PStr "Example"; author := "@alice";
                   url := issue_url "7" |})
  /\ Exists (label_named PROPOSAL_LABEL) [PDict [("name", PStr "proposal")]].
Proof.
  assert (Forall label_not_proposal [PDict [("name", PStr "bug")]]) as Hbug.
  { constructor; [|constructor].
    exists [("name", PStr "bug")]. split; [reflexivity|]. cbn. discriminate. }
  split; [exact Hbug|]. split.
  - apply (proj1 (unlabelled_issue_is_no_record
                    (sample_plugin answer_plain_issue) "7")
             {| status := 200;
                json := Ok (PDict [("labels", PList [PDict [("name", PStr "bug")]]);
                                   ("user", PNone)]) |}
             [("labels", PList [PDict [("name", PStr "bug")]]); ("user", PNone)]
             [PDict [("name", PStr "bug")]]).
    + reflexivity.
    + reflexivity.
    + reflexivity.
    + left. reflexivity.
    + exact Hbug.
  - split; [reflexivity|].
    destruct (proj2 (unlabelled_issue_is_no_record
                       (sample_plugin answer_proposal) "7")
                {| id := "7"; title := PStr "Example"; author := "@alice";
                   url := issue_url "7" |} eq_refl)
      as (response & response_body & labels_value & labels
          & Hget & Hjson & Hvalue & Hiter & Hex).
    injection Hget as <-. injection Hjson as <-.
    injection Hvalue as <-. injection Hiter as <-. exact Hex.
Defined.

(** A record carries the id it was asked for and the URL built from it. *)
Lemma resolve_some_fields (self : Plugin) (msc_id : string) (msc : MSC) :
  outcome (_resolve_msc self msc_id) = Ok (Some msc) ->
  id msc = msc_id /\ url msc = issue_url msc_id.
Proof.
  unfold _resolve_msc. rewrite bind_perform. unfold outcome at 1. cbn [snd].
  step_lift; [|discriminate].
  destruct ((if (status a =? 200)%Z then ret tt else raise_for_status a))
    as [t [[]|e]] eqn:Echeck; [|discriminate].
  assert (t = []) as ->.
  { destruct (status a =? 200)%Z; [now inversion Echeck|].
    unfold raise_for_status in Echeck.
    destruct (400 <=? status a)%Z; now inversion Echeck. }
  change ([], Ok tt) with (@ret unit tt). rewrite bind_ret.
  repeat (step_lift; [|discriminate]).
  destruct a3; cbn [negb]; [|discriminate].
  repeat (step_lift; [|discriminate]).
  intros [= <-]. split; reflexivity.
Qed.

(** The records found for a list of ids carry, in the same order, the
    ids that resolved to a record. *)
Lemma records_of_ids (self : Plugin) (msc_ids : list string) :
  map id (records_of self msc_ids) = filter (resolves_to_record self) msc_ids.
Proof.
  unfold records_of, resolves_to_record.
  induction msc_ids as [|i tl IH]; [reflexivity|].
  cbn [flat_map filter].
  destruct (outcome (_resolve_msc self i)) as [[msc|]|e] eqn:E; try exact IH.
  cbn [app map]. rewrite IH.
  now destruct (resolve_some_fields self i msc E) as [-> _].
Qed.

(** C5, as the code has it.  A response with status 400 or more (404 and
    500 among them) makes the resolver raise [ClientResponseError]
    instead of returning a record or [None], and the resolver has asked
    the tracker exactly once: the request is not repeated. *)
Theorem error_status_raises_once (self : Plugin) (msc_id : string)
        (response : ClientResponse) :
  http_get self (issue_api_url msc_id) = Ok response ->
  (400 <= status response)%Z ->
  _resolve_msc self msc_id =
  ([HttpGet (issue_api_url msc_id)], Raise (ClientResponseError (status response)))
  /\ is_ClientResponseError (ClientResponseError (status response)) = true.
Proof.
  intros Hget Hstatus. split; [|reflexivity].
  rewrite resolve_eta. f_equal.
  unfold _resolve_msc. rewrite bind_perform. unfold outcome at 1. cbn [snd].
  rewrite Hget, bind_lift_ok.
  destruct (status response =? 200)%Z eqn:E200.
  - apply Z.eqb_eq in E200. lia.
  - unfold raise_for_status.
    apply Z.leb_le in Hstatus. rewrite Hstatus. reflexivity.
Qed.

Lemma error_status_raises_once_witness :
  (400 <= 404)%Z
  /\ _resolve_msc (sample_plugin (answer_status 404)) "1234"
     = ([HttpGet (issue_api_url "1234")], Raise (ClientResponseError 404))
  /\ _resolve_msc (sample_plugin (answer_status 500)) "1234"
     = ([HttpGet (issue_api_url "1234")], Raise (ClientResponseError 500)).
Proof.
  split; [lia|]. split.
  - apply (error_status_raises_once (sample_plugin (answer_status 404)) "1234"
             {| status := 404;
                json := Ok (PDict [("message", PStr "see documentation_url")]) |});
      [reflexivity | cbn; lia].
  - apply (error_status_raises_once (sample_plugin (answer_status 500)) "1234"
             {| status := 500;
                json := Ok (PDict [("message", PStr "see documentation_url")]) |});
      [reflexivity | cbn; lia].
Defined.

(** C5, as stated, fails: status 300 is not a 2xx status, yet the
    resolver raises nothing and returns [None] as for an ordinary
    issue. *)
Lemma status_300_is_not_a_failure :
  http_get (sample_plugin (answer_status 300)) (issue_api_url "1234")
  = Ok {| status := 300;
          json := Ok (PDict [("message", PStr "see documentation_url")]) |}
  /\ ~ (200 <= 300 < 300)%Z
  /\ _resolve_msc (sample_plugin (answer_status 300)) "1234"
     = ([HttpGet (issue_api_url "1234")], Ok None).
Proof.
  split; [reflexivity|]. split; [lia|]. reflexivity.
Qed.

(** What the resolver does with a proposal once the label is found:
    every case of the creator field. *)
Lemma build_msc_cases (msc_id : string) (entries : list (string * pyval)) :
  build_msc msc_id (PDict entries) =
  let msc_title := match assoc "title" entries with
                   | Some t => t
                   | None => PStr "Unknown title"
                   end in
  let record login := Ok {| id := msc_id; title := msc_title;
                            author := "@" ++ login; url := issue_url msc_id |} in
  match assoc "user" entries with
  | None => record "Unknown author"
  | Some (PDict user) =>
      match assoc "login" user with
      | None => record "Unknown author"
      | Some (PStr login) => record login
      | Some _ => Raise TypeError
      end
  | Some _ => Raise AttributeError
  end.
Proof.
  unfold build_msc. cbn [py_get].
  destruct (assoc "title" entries); destruct (assoc "user" entries) as [[]|];
    try reflexivity; cbn [py_get assoc];
    destruct (assoc "login" entries0) as [[]|]; reflexivity.
Qed.

(** C7.  For a status-200 response that carries the proposal label, the
    record returned has the id it was asked for, the title of the
    response or ["Unknown title"] when there is none, ["@"] followed by
    the creator's login or ["@Unknown author"] when the response has no
    creator (or a creator without a login), and the issue URL built from
    [MSC_REPO] and the id. *)
Theorem labelled_issue_record (self : Plugin) (msc_id : string)
        (response : ClientResponse) (entries : list (string * pyval))
        (labels : list pyval) :
  http_get self (issue_api_url msc_id) = Ok response ->
  status response = 200%Z ->
  json response = Ok (PDict entries) ->
  has_labels entries labels ->
  Forall is_object labels ->
  Exists (label_named PROPOSAL_LABEL) labels ->
  let msc_title := match assoc "title" entries with
                   | Some t => t
                   | None => PStr "Unknown title"
                   end in
  let msc_url := "https://github.com/" ++ MSC_REPO ++ "/issues/" ++ msc_id in
  (forall user login,
      assoc "user" entries = Some (PDict user) ->
      assoc "login" user = Some (PStr login) ->
      outcome (_resolve_msc self msc_id) =
      Ok (Some {| id := msc_id; title := msc_title;
                  author := "@" ++ login; url := msc_url |}))
  /\ (assoc "user" entries = None ->
      outcome (_resolve_msc self msc_id) =
      Ok (Some {| id := msc_id; title := msc_title;
                  author := "@Unknown author"; url := msc_url |}))
  /\ (forall user,
         assoc "user" entries = Some (PDict user) ->
         assoc "login" user = None ->
         outcome (_resolve_msc self msc_id) =
         Ok (Some {| id := msc_id; title := msc_title;
                     author := "@Unknown author"; url := msc_url |})).
Proof.
  intros Hget Hstatus Hjson Hlabels Hobjects Hfound msc_title msc_url.
  assert (outcome (_resolve_msc self msc_id) =
          match build_msc msc_id (PDict entries) with
          | Ok msc => Ok (Some msc)
          | Raise e => Raise e
          end) as ->.
  { rewrite (resolve_below_400 self msc_id response entries labels);
      try assumption; [|lia].
    now rewrite scan_labels_found. }
  rewrite build_msc_cases. cbn zeta. fold msc_title. repeat split.
  - intros user login -> ->. reflexivity.
  - intros ->. reflexivity.
  - intros user -> ->. reflexivity.
Qed.

Lemma labelled_issue_record_witness :
  Exists (label_named PROPOSAL_LABEL) [PDict [("name", PStr "proposal")]]
  /\ outcome (_resolve_msc (sample_plugin answer_proposal) "0042") =
     Ok (Some {| id := "0042"; title := PStr "Example"; author := "@alice";
                 url := "https://github.com/matrix-org/matrix-spec-proposals/issues/0042" |})
  /\ outcome (_resolve_msc (sample_plugin answer_bare_proposal) "0042") =
     Ok (Some {| id := "0042"; title := PStr "Unknown title";
                 author := "@Unknown author";
                 url := "https://github.com/matrix-org/matrix-spec-proposals/issues/0042" |}).
Proof.
  assert (Exists (label_named PROPOSAL_LABEL) [PDict [("name", PStr "proposal")]])
    as Hfound.
  { left. exists [("name", PStr "proposal")]. split; reflexivity. }
  assert (Forall is_object [PDict [("name", PStr "proposal")]]) as Hobjects.
  { constructor; [|constructor]. now exists [("name", PStr "proposal")]. }
  split; [exact Hfound|]. split.
  - exact (proj1 (labelled_issue_record
                   (sample_plugin answer_proposal) "0042"
                   {| status := 200;
                      json := Ok (issue_json ["proposal"] "Example" "alice") |}
                   [("labels", PList [PDict [("name", PStr "proposal")]]);
                    ("title", PStr "Example");
                    ("user", PDict [("login", PStr "alice")])]
                   [PDict [("name", PStr "proposal")]]
                   eq_refl eq_refl eq_refl (or_introl eq_refl) Hobjects Hfound)
                [("login", PStr "alice")] "alice" eq_refl eq_refl).
  - exact (proj1 (proj2 (labelled_issue_record
                   (sample_plugin answer_bare_proposal) "0042"
                   {| status := 200;
                      json := Ok (PDict [("labels",
                                          PList [PDict [("name", PStr "proposal")]])]) |}
                   [("labels", PList [PDict [("name", PStr "proposal")]])]
                   [PDict [("name", PStr "proposal")]]
                   eq_refl eq_refl eq_refl (or_introl eq_refl) Hobjects Hfound))
                eq_refl).
Defined.


(** ** The dispatch guards *)

(** Any one of the three guards ends the handler before it has done
    anything. *)
Lemma respond_ignored (self : Plugin) (event : MessageEvent)
      (match_ : list (string * string)) :
  sender event = client_mxid self
  \/ get_edit (content event) <> None
  \/ (msgtype (content event) <> TEXT /\ msgtype (content event) <> EMOTE) ->
  respond_to_message self event match_ = ([], Ok tt).
Proof.
  intros Hignored. unfold respond_to_message.
  destruct (String.eqb (sender event) (client_mxid self)) eqn:Esender;
    [reflexivity|].
  destruct (get_edit (content event)) eqn:Eedit; [reflexivity|].
  destruct (in_text_or_emote (msgtype (content event))) eqn:Etype;
    [|reflexivity].
  exfalso. destruct Hignored as [Hs | [He | [Ht1 Ht2]]].
  - apply String.eqb_neq in Esender. contradiction.
  - now apply He.
  - unfold in_text_or_emote in Etype.
    destruct (msgtype (content event)); try discriminate; auto.
Qed.

(** C2.  An event sent by the bot itself, an edit, or an event whose
    type is neither text nor emote (a notice, say) makes the handler
    return at once: nothing is requested, nothing is logged, and no
    reply is sent. *)
Theorem ignored_event_gets_no_reply (self : Plugin) (event : MessageEvent)
        (match_ : list (string * string)) :
  sender event = client_mxid self
  \/ get_edit (content event) <> None
  \/ (msgtype (content event) <> TEXT /\ msgtype (content event) <> EMOTE) ->
  respond_to_message self event match_ = ([], Ok tt)
  /\ replies (trace (respond_to_message self event match_)) = [].
Proof.
  intros Hignored. rewrite (respond_ignored self event match_ Hignored).
  split; reflexivity.
Qed.

Lemma ignored_event_gets_no_reply_witness :
  (msgtype (content (sample_event NOTICE "see msc1234")) <> TEXT
   /\ msgtype (content (sample_event NOTICE "see msc1234")) <> EMOTE)
  /\ respond_to_message (sample_plugin answer_proposal)
                        (sample_event NOTICE "see msc1234")
                        (passive_match "see msc1234") = ([], Ok tt).
Proof.
  assert (msgtype (content (sample_event NOTICE "see msc1234")) <> TEXT
          /\ msgtype (content (sample_event NOTICE "see msc1234")) <> EMOTE)
    as Hnotice by (split; discriminate).
  split; [exact Hnotice|].
  exact (proj1 (ignored_event_gets_no_reply
                  (sample_plugin answer_proposal)
                  (sample_event NOTICE "see msc1234")
                  (passive_match "see msc1234")
                  (or_intror (or_intror Hnotice)))).
Defined.

(** C9.  Whatever the handler posts is an [m.notice]; and an event that
    carries such a reply, whoever its sender is and whichever instance of
    the plugin receives it, is dropped by the message-type guard before
    anything is done with it. *)
Theorem replies_are_notices_and_start_nothing (self : Plugin)
        (event : MessageEvent) (match_ : list (string * string))
        (room : string) (mt : MessageType) (text html : string) :
  In (SendMessage room mt text html)
     (trace (respond_to_message self event match_)) ->
  mt = NOTICE
  /\ forall (receiver : Plugin) (sender' event_id' : string)
            (edit' : option string) (match' : list (string * string)),
      respond_to_message receiver
        {| sender := sender'; room_id := room; event_id := event_id';
           content := {| msgtype := mt; body := text; get_edit := edit' |} |}
        match' = ([], Ok tt).
Proof.
  intros Hin.
  assert (In (SendMessage room mt text html)
             (replies (trace (respond_to_message self event match_)))) as Hreply.
  { unfold replies. apply filter_In. split; [exact Hin|reflexivity]. }
  apply respond_replies in Hreply. destruct Hreply as [text' Heq].
  injection Heq as -> -> -> ->. split; [reflexivity|].
  intros receiver sender' event_id' edit' match'.
  apply respond_ignored.
  right; right. split; discriminate.
Qed.

Lemma replies_are_notices_and_start_nothing_witness :
  In (SendMessage "!room:example.org" NOTICE
                  "[Example](https://github.com/matrix-org/matrix-spec-proposals/issues/1234) by @alice"
                  "[Example](https://github.com/matrix-org/matrix-spec-proposals/issues/1234) by @alice")
     (trace (respond_to_message (sample_plugin answer_proposal)
                                (sample_event TEXT "see msc1234")
                                (passive_match "see msc1234")))
  /\ respond_to_message (sample_plugin answer_proposal)
       {| sender := "@mscbot:example.org"; room_id := "!room:example.org";
          event_id := "$reply";
          content :=
            {| msgtype := NOTICE;
               body := "[Example](https://github.com/matrix-org/matrix-spec-proposals/issues/1234) by @alice";
               get_edit := None |} |}
       (passive_match "msc1234") = ([], Ok tt).
Proof.
  assert (In (SendMessage "!room:example.org" NOTICE
                  "[Example](https://github.com/matrix-org/matrix-spec-proposals/issues/1234) by @alice"
                  "[Example](https://github.com/matrix-org/matrix-spec-proposals/issues/1234) by @alice")
             (trace (respond_to_message (sample_plugin answer_proposal)
                                        (sample_event TEXT "see msc1234")
                                        (passive_match "see msc1234")))) as Hin.
  { vm_compute. right; right; right; left. reflexivity. }
  split; [exact Hin|].
  exact (proj2 (replies_are_notices_and_start_nothing _ _ _ _ _ _ _ Hin)
               (sample_plugin answer_proposal) "@mscbot:example.org" "$reply"
               None (passive_match "msc1234")).
Defined.

(** ** Failures during resolution *)

(** C1, as the code has it.  When the lookup of one id raises, the
    handler stops there: the ids after it are never requested and
    nothing is posted, not even the records already found.  An exception
    of class [ClientResponseError] is caught, passed to [log.error], and
    the handler returns normally; an exception of any other class (a
    refused connection, say) is not caught and not logged by the handler,
    and leaves it. *)
Theorem failed_lookup_aborts_message (self : Plugin) (event : MessageEvent)
        (match_ : list (string * string))
        (before after : list string) (x : string) (e : exn) :
  accepted self event ->
  collect_ids match_ [] = (before ++ x :: after)%list ->
  Forall (fun i => exists r, outcome (_resolve_msc self i) = Ok r) before ->
  outcome (_resolve_msc self x) = Raise e ->
  let run := respond_to_message self event match_ in
  requests (trace run) = map issue_api_url (before ++ [x])
  /\ replies (trace run) = []
  /\ (is_ClientResponseError e = true ->
      error_reports (trace run) = [LogError "Failed to query GitHub's API:" e]
      /\ outcome run = Ok tt)
  /\ (is_ClientResponseError e = false ->
      error_reports (trace run) = [] /\ outcome run = Raise e).
Proof.
  intros Haccepted Hids Hbefore Hx run. subst run.
  rewrite (respond_accepted self event match_ Haccepted). cbn zeta.
  rewrite Hids, (resolve_each_raises self event before after x e Hbefore Hx).
  pose proof (lookup_events_requests event) as Hreq.
  pose proof (lookup_events_replies event) as Hrep.
  pose proof (lookup_events_error_reports event) as Herr.
  destruct (is_ClientResponseError e); unfold trace, outcome; cbn [fst snd].
  - unfold requests, replies, error_reports in *.
    rewrite flat_map_app, !filter_app, Hreq, Hrep, Herr. cbn.
    rewrite app_nil_r. repeat split; try reflexivity; discriminate.
  - rewrite Hreq, Hrep, Herr. repeat split; try reflexivity; discriminate.
Qed.

Lemma failed_lookup_aborts_message_witness :
  accepted (sample_plugin answer_only_1) (sample_event TEXT "msc1 msc2 msc3")
  /\ outcome (_resolve_msc (sample_plugin answer_only_1) "2")
     = Raise (ClientResponseError 404)
  /\ requests (trace (respond_to_message
                        (sample_plugin answer_only_1)
                        (sample_event TEXT "msc1 msc2 msc3")
                        (passive_match "msc1 msc2 msc3")))
     = [issue_api_url "1"; issue_api_url "2"]
  /\ replies (trace (respond_to_message
                       (sample_plugin answer_only_1)
                       (sample_event TEXT "msc1 msc2 msc3")
                       (passive_match "msc1 msc2 msc3"))) = []
  /\ error_reports (trace (respond_to_message
                             (sample_plugin answer_only_1)
                             (sample_event TEXT "msc1 msc2 msc3")
                             (passive_match "msc1 msc2 msc3")))
     = [LogError "Failed to query GitHub's API:" (ClientResponseError 404)].
Proof.
  assert (accepted (sample_plugin answer_only_1)
                   (sample_event TEXT "msc1 msc2 msc3")) as Haccepted.
  { repeat split; [discriminate | now left]. }
  assert (Forall (fun i => exists r,
                      outcome (_resolve_msc (sample_plugin answer_only_1) i) = Ok r)
                 ["1"]) as Hbefore.
  { constructor; [|constructor]. eexists. reflexivity. }
  destruct (failed_lookup_aborts_message
              (sample_plugin answer_only_1)
              (sample_event TEXT "msc1 msc2 msc3")
              (passive_match "msc1 msc2 msc3")
              ["1"] ["3"] "2" (ClientResponseError 404)
              Haccepted eq_refl Hbefore eq_refl)
    as (Hrequests & Hreplies & Hcaught & _).
  split; [exact Haccepted|]. split; [reflexivity|].
  split; [exact Hrequests|]. split; [exact Hreplies|].
  exact (proj1 (Hcaught eq_refl)).
Defined.

(** C1, as stated, fails for a failure that is not an error status: the
    tracker cannot be reached, the lookup raises a connection error, and
    the handler ends without a call to [log.error]. *)
Lemma unreachable_tracker_is_not_reported :
  fetch_failure ClientConnectionError = true
  /\ accepted (sample_plugin answer_unreachable) (sample_event TEXT "see msc1234")
  /\ collect_ids (passive_match "see msc1234") [] = ["1234"]
  /\ outcome (_resolve_msc (sample_plugin answer_unreachable) "1234")
     = Raise ClientConnectionError
  /\ respond_to_message (sample_plugin answer_unreachable)
                        (sample_event TEXT "see msc1234")
                        (passive_match "see msc1234")
     = ([LogDebug "Resolving MSC1234 in room !room:example.org in response to $event";
         HttpGet (issue_api_url "1234")],
        Raise ClientConnectionError)
  /\ error_reports (trace (respond_to_message
                             (sample_plugin answer_unreachable)
                             (sample_event TEXT "see msc1234")
                             (passive_match "see msc1234"))) = [].
Proof.
  repeat split; try reflexivity; try discriminate. now left.
Qed.

(** ** The reply text *)

Lemma str_app_assoc (s1 s2 s3 : string) : (s1 ++ s2) ++ s3 = s1 ++ s2 ++ s3.
Proof.
  induction s1 as [|c s1 IH]; [reflexivity|]. cbn. now rewrite IH.
Qed.

(** C6.  One record is rendered as [[title](url) by author], without its
    id.  Two or more records are rendered one by one as
    [MSCid: [title](url) by author], in the order given, with an empty
    line between consecutive entries.  The handler hands the formatter
    the records in the order of the ids it extracted and posts the
    text it gets back.  The record with id 1234, title Example, author
    @alice and url https://x/1234 gives
    [[Example](https://x/1234) by @alice]. *)
Theorem reply_text_layout (self : Plugin) :
  (forall i t a u,
      compose_message self [{| id := i; title := PStr t; author := a; url := u |}]
      = Ok ("[" ++ t ++ "](" ++ u ++ ") by " ++ a))
  /\ (forall i1 t1 a1 u1 i2 t2 a2 u2,
         compose_message self [{| id := i1; title := PStr t1; author := a1; url := u1 |};
                               {| id := i2; title := PStr t2; author := a2; url := u2 |}]
         = Ok ("MSC" ++ i1 ++ ": [" ++ t1 ++ "](" ++ u1 ++ ") by " ++ a1
               ++ newline ++ newline
               ++ "MSC" ++ i2 ++ ": [" ++ t2 ++ "](" ++ u2 ++ ") by " ++ a2))
  /\ (forall m1 m2 more,
         compose_message self (m1 :: m2 :: more)
         = Ok (String.concat
                 (newline ++ newline)
                 (map (fun m => "MSC" ++ id m ++ ": [" ++ py_str self (title m)
                                ++ "](" ++ url m ++ ") by " ++ author m)
                      (m1 :: m2 :: more))))
  /\ compose_message self [{| id := "1234"; title := PStr "Example";
                              author := "@alice"; url := "https://x/1234" |}]
     = Ok "[Example](https://x/1234) by @alice"
  /\ (forall event match_ first others,
         accepted self event ->
         Forall (fun i => exists r, outcome (_resolve_msc self i) = Ok r)
                (collect_ids match_ []) ->
         records_of self (collect_ids match_ []) = first :: others ->
         map id (first :: others)
         = filter (resolves_to_record self) (collect_ids match_ [])
         /\ exists message,
             compose_message self (first :: others) = Ok message
             /\ replies (trace (respond_to_message self event match_))
                = [SendMessage (room_id event) NOTICE message
                               (markdown_render self message)]).
Proof.
  split; [|split; [|split; [|split]]].
  - intros i t a u. reflexivity.
  - intros i1 t1 a1 u1 i2 t2 a2 u2. unfold compose_message.
    cbn [List.length Nat.ltb Nat.leb map String.concat _format_msc
         id title author url py_str].
    rewrite !str_app_assoc. reflexivity.
  - intros m1 m2 more. reflexivity.
  - reflexivity.
  - intros event match_ first others Haccepted Hok Hrecords.
    split; [rewrite <- Hrecords; apply records_of_ids|].
    rewrite (respond_accepted self event match_ Haccepted). cbn zeta.
    rewrite (resolve_each_all_ok self event _ Hok []). cbn [app].
    rewrite Hrecords. unfold trace, outcome; cbn [fst snd].
    assert (exists message, compose_message self (first :: others) = Ok message)
      as [message Hmessage].
    { unfold compose_message. destruct (1 <? List.length (first :: others))%nat;
        eexists; reflexivity. }
    exists message. split; [exact Hmessage|]. rewrite Hmessage.
    cbn [fst]. pose proof (lookup_events_replies event) as Hrep.
    unfold replies in *. rewrite filter_app, Hrep. reflexivity.
Qed.

Lemma reply_text_layout_witness :
  accepted (sample_plugin answer_proposal) (sample_event TEXT "msc1 and msc01")
  /\ replies (trace (respond_to_message
                       (sample_plugin answer_proposal)
                       (sample_event TEXT "msc1 and msc01")
                       (passive_match "msc1 and msc01")))
     = [SendMessage "!room:example.org" NOTICE
          ("MSC1: [Example](https://github.com/matrix-org/matrix-spec-proposals/issues/1) by @alice"
           ++ newline ++ newline ++
           "MSC01: [Example](https://github.com/matrix-org/matrix-spec-proposals/issues/01) by @alice")
          ("MSC1: [Example](https://github.com/matrix-org/matrix-spec-proposals/issues/1) by @alice"
           ++ newline ++ newline ++
           "MSC01: [Example](https://github.com/matrix-org/matrix-spec-proposals/issues/01) by @alice")].
Proof.
  assert (accepted (sample_plugin answer_proposal)
                   (sample_event TEXT "msc1 and msc01")) as Haccepted.
  { split; [discriminate|]. split; [reflexivity | now left]. }
  split; [exact Haccepted|].
  assert (Forall (fun i => exists r,
                      outcome (_resolve_msc (sample_plugin answer_proposal) i) = Ok r)
                 (collect_ids (passive_match "msc1 and msc01") [])) as Hok.
  { constructor; [eexists; reflexivity|].
    constructor; [eexists; reflexivity|]. constructor. }
  destruct (proj2 (proj2 (proj2 (proj2
              (reply_text_layout (sample_plugin answer_proposal)))))
              (sample_event TEXT "msc1 and msc01")
              (passive_match "msc1 and msc01") _ _ Haccepted Hok eq_refl)
    as (_ & message & Hmessage & Hreplies).
  injection Hmessage as <-. exact Hreplies.
Defined.

(** ** The Extractor *)

Lemma filter_twice {A} (p q : A -> bool) (l : list A) :
  filter p (filter q l) = filter (fun x => q x && p x) l.
Proof.
  induction l as [|x tl IH]; [reflexivity|].
  cbn. destruct (q x); cbn; [destruct (p x)|]; now rewrite IH.
Qed.

Lemma first_occurrences_filter (p : string -> bool) (l : list string) :
  first_occurrences (filter p l) = filter p (first_occurrences l).
Proof.
  induction l as [|x tl IH]; [reflexivity|].
  cbn [filter first_occurrences]. destruct (p x) eqn:Px.
  - cbn [first_occurrences]. rewrite IH, !filter_twice. f_equal.
    apply filter_ext. intros y. apply andb_comm.
  - rewrite IH, filter_twice. apply filter_ext_in. intros y _.
    destruct (String.eqb x y) eqn:Exy; [|reflexivity].
    apply String.eqb_eq in Exy. subst y. now rewrite Px.
Qed.

Lemma str_in_snoc (y x : string) (l : list string) :
  str_in y (l ++ [x]) = str_in y l || String.eqb x y.
Proof.
  unfold str_in. rewrite existsb_app. cbn.
  now rewrite orb_false_r, (String.eqb_sym y x).
Qed.

(** The loop of lines 53-56 from any intermediate state: what is already
    collected stays, and the new values are appended once each, in the
    order of their first occurrence. *)
Lemma collect_ids_spec (matches : list (string * string)) :
  forall msc_ids,
    collect_ids matches msc_ids =
    (msc_ids ++ first_occurrences
               (filter (fun y => negb (str_in y msc_ids)) (map snd matches)))%list.
Proof.
  induction matches as [|[whole x] tl IH]; intros msc_ids.
  - cbn. now rewrite app_nil_r.
  - cbn [collect_ids map snd filter].
    destruct (str_in x msc_ids) eqn:Ex; cbn [negb].
    + apply IH.
    + rewrite IH, <- app_assoc. cbn [app first_occurrences]. do 2 f_equal.
      rewrite <- first_occurrences_filter, filter_twice. f_equal.
      apply filter_ext. intros y. rewrite str_in_snoc, negb_orb. reflexivity.
Qed.

Lemma first_occurrences_In (x : string) (l : list string) :
  In x (first_occurrences l) <-> In x l.
Proof.
  induction l as [|y tl IH]; [reflexivity|].
  cbn [first_occurrences In]. rewrite filter_In, IH. split.
  - intros [H | [H _]]; auto.
  - intros [H | H]; [now left|].
    destruct (String.eqb y x) eqn:E.
    + apply String.eqb_eq in E. now left.
    + right. now split.
Qed.

Lemma first_occurrences_NoDup (l : list string) : NoDup (first_occurrences l).
Proof.
  induction l as [|y tl IH]; [constructor|].
  cbn [first_occurrences]. constructor.
  - rewrite filter_In. intros [_ H]. now rewrite String.eqb_refl in H.
  - now apply NoDup_filter.
Qed.

Lemma extract_first_occurrences (data : string) :
  extract data = first_occurrences (finditer data).
Proof.
  unfold extract, passive_match. rewrite collect_ids_spec. cbn [app].
  rewrite map_map. cbn [snd]. rewrite map_id. f_equal.
  rewrite (filter_ext _ (fun _ => true) (fun y => eq_refl)).
  induction (finditer data) as [|x tl IH]; [reflexivity|]. cbn. now rewrite IH.
Qed.

Lemma take_digits_spec (n : nat) :
  forall s, exists rest,
    s = take_digits n s ++ rest
    /\ all_digits (take_digits n s) = true
    /\ String.length (take_digits n s) <= n
    /\ (String.length (take_digits n s) < n -> starts_with_digit rest = false).
Proof.
  induction n as [|n IH]; intros s.
  - exists s. destruct s; repeat split; auto; cbn; lia.
  - destruct s as [|c tl].
    + exists "". repeat split. cbn. lia.
    + cbn [take_digits]. destruct (is_digit c) eqn:Ec.
      * destruct (IH tl) as (rest & Heq & Hdigits & Hlen & Hmax).
        exists rest. cbn [append all_digits String.length].
        rewrite <- Heq, Ec, Hdigits. repeat split; [lia|].
        intros H. apply Hmax. lia.
      * exists (String c tl). repeat split; [cbn; lia|].
        intros _. exact Ec.
Qed.

Lemma match_here_spec (s ds : string) :
  match_here s = Some ds ->
  exists a b c rest,
    s = String a (String b (String c (ds ++ rest)))
    /\ lit_ci "m" "M" a && lit_ci "s" "S" b && lit_ci "c" "C" c = true
    /\ (String.length ds < 4 -> starts_with_digit rest = false)
    /\ all_digits ds = true
    /\ 1 <= String.length ds <= 4.
Proof.
  destruct s as [|a [|b [|c tl]]]; try discriminate.
  unfold match_here.
  destruct (lit_ci "m" "M" a && lit_ci "s" "S" b && lit_ci "c" "C" c) eqn:E;
    [|discriminate].
  destruct (take_digits_spec 4 tl) as (rest & Heq & Hdigits & Hlen & Hmax).
  destruct (take_digits 4 tl) as [|d ds'] eqn:Et; [discriminate|].
  intros [= <-]. exists a, b, c, rest. rewrite <- Heq.
  repeat split; auto. cbn. lia.
Qed.

(** Every value [finditer] reports is a run of one to four digits that
    stands in the text right after a case-insensitive "msc", and is as
    long as the digits there and the bound of four allow. *)
Lemma finditer_from_sound (s : string) :
  forall skip x,
    In x (finditer_from skip s) ->
    follows_msc s x /\ all_digits x = true /\ 1 <= String.length x <= 4.
Proof.
  assert (forall c tl x, follows_msc tl x -> follows_msc (String c tl) x) as Hshift.
  { intros c tl x (before & a & b & c' & rest & -> & Hci).
    exists (String c before), a, b, c', rest. split; [reflexivity|exact Hci]. }
  induction s as [|c0 tl IH]; intros skip x; cbn [finditer_from]; [intros []|].
  destruct skip as [|k].
  - destruct (match_here (String c0 tl)) as [ds|] eqn:E.
    + intros [<- | Hin].
      * destruct (match_here_spec _ _ E)
          as (a & b & c & rest & Heq & Hci & Hmax & Hd & Hl).
        split; [|split; assumption].
        exists "", a, b, c, rest. split; [exact Heq|]. split; assumption.
      * destruct (IH _ _ Hin) as (Hocc & Hrest). split; [now apply Hshift|exact Hrest].
    + intros Hin. destruct (IH _ _ Hin) as (Hocc & Hrest).
      split; [now apply Hshift|exact Hrest].
  - intros Hin. destruct (IH _ _ Hin) as (Hocc & Hrest).
    split; [now apply Hshift|exact Hrest].
Qed.

(** C3.  The ids extracted from a body are the values matched by the
    pattern (runs of one to four digits right after a case-insensitive
    "msc"), each listed once, at the place of its first match; the body
    "check msc1234 and MSC1234 also msc42" gives ["1234"; "42"]. *)
Theorem extract_distinct_in_first_match_order (data : string) :
  extract data = first_occurrences (finditer data)
  /\ NoDup (extract data)
  /\ (forall x, In x (extract data) <-> In x (finditer data))
  /\ (forall x, In x (extract data) ->
                follows_msc data x
                /\ all_digits x = true
                /\ 1 <= String.length x <= 4)
  /\ extract "check msc1234 and MSC1234 also msc42" = ["1234"; "42"].
Proof.
  rewrite extract_first_occurrences. split; [reflexivity|].
  split; [apply first_occurrences_NoDup|].
  split; [intros x; apply first_occurrences_In|].
  split; [|reflexivity].
  intros x Hin. apply (proj1 (first_occurrences_In x (finditer data))) in Hin.
  exact (finditer_from_sound data 0 x Hin).
Qed.

Lemma extract_distinct_in_first_match_order_witness :
  In "42" (extract "check msc1234 and MSC1234 also msc42")
  /\ follows_msc "check msc1234 and MSC1234 also msc42" "42"
  /\ NoDup (extract "check msc1234 and MSC1234 also msc42").
Proof.
  assert (In "42" (extract "check msc1234 and MSC1234 also msc42")) as Hin.
  { right. left. reflexivity. }
  destruct (extract_distinct_in_first_match_order
              "check msc1234 and MSC1234 also msc42")
    as (_ & Hnodup & _ & Hsound & _).
  split; [exact Hin|]. split; [exact (proj1 (Hsound "42" Hin))|exact Hnodup].
Defined.

(** ** Digit runs longer than the pattern allows *)

Lemma digit_is_not_m (c : ascii) : is_digit c = true -> lit_ci "m" "M" c = false.
Proof.
  destruct c as [[] [] [] [] [] [] [] []]; cbn; intros H;
    try discriminate H; reflexivity.
Qed.

Lemma match_here_digit (c : ascii) (s : string) :
  is_digit c = true -> match_here (String c s) = None.
Proof.
  intros Hc. destruct s as [|b [|c' rest]]; try reflexivity.
  unfold match_here. now rewrite (digit_is_not_m c Hc).
Qed.

(** A match cannot start inside a run of digits. *)
Lemma finditer_skips_digits (run rest : string) :
  all_digits run = true ->
  finditer_from 0 (run ++ rest) = finditer_from 0 rest.
Proof.
  induction run as [|c tl IH]; [reflexivity|].
  cbn [all_digits append]. intros H. apply andb_prop in H as [Hc Htl].
  cbn [finditer_from]. rewrite (match_here_digit c _ Hc). now apply IH.
Qed.

Lemma str_app_nil_r (s : string) : s ++ "" = s.
Proof.
  induction s as [|c tl IH]; [reflexivity|]. cbn. now rewrite IH.
Qed.

Lemma finditer_long_run (a b c : ascii) (run rest : string) :
  lit_ci "m" "M" a && lit_ci "s" "S" b && lit_ci "c" "C" c = true ->
  all_digits run = true ->
  4 < String.length run ->
  finditer (String a (String b (String c (run ++ rest))))
  = substring 0 4 run :: finditer rest.
Proof.
  intros Hci Hdigits Hlen.
  destruct run as [|d1 [|d2 [|d3 [|d4 [|d5 more]]]]]; cbn in Hlen; try lia.
  cbn [all_digits] in Hdigits.
  apply andb_prop in Hdigits as [H1 Hdigits].
  apply andb_prop in Hdigits as [H2 Hdigits].
  apply andb_prop in Hdigits as [H3 Hdigits].
  apply andb_prop in Hdigits as [H4 Hdigits].
  unfold finditer. cbn [finditer_from append]. unfold match_here.
  rewrite Hci. cbn [take_digits]. rewrite H1, H2, H3, H4.
  cbn [String.length Nat.add finditer_from substring].
  f_equal.
  exact (finditer_skips_digits (String d5 more) rest Hdigits).
Qed.

(** C8.  When "msc" is followed by a run of more than four digits, the
    pattern matches once, on the first four digits of the run: the rest
    of the run starts no further match, so a body that is just "msc" and
    the run yields that single id; "msc12345" gives ["1234"]. *)
Theorem long_digit_run_yields_first_four (a b c : ascii) (run rest : string) :
  lit_ci "m" "M" a && lit_ci "s" "S" b && lit_ci "c" "C" c = true ->
  all_digits run = true ->
  4 < String.length run ->
  finditer (String a (String b (String c (run ++ rest))))
  = substring 0 4 run :: finditer rest
  /\ extract (String a (String b (String c run))) = [substring 0 4 run]
  /\ extract "msc12345" = ["1234"].
Proof.
  intros Hci Hdigits Hlen.
  split; [now apply finditer_long_run|]. split; [|reflexivity].
  rewrite extract_first_occurrences.
  rewrite <- (str_app_nil_r run) at 1.
  rewrite (finditer_long_run a b c run "" Hci Hdigits Hlen). reflexivity.
Qed.

Lemma long_digit_run_yields_first_four_witness :
  all_digits "123456789" = true
  /\ 4 < String.length "123456789"
  /\ finditer "MsC123456789 and msc5" = ["1234"; "5"]
  /\ extract "MsC123456789" = ["1234"].
Proof.
  split; [reflexivity|]. split; [cbn; lia|].
  destruct (long_digit_run_yields_first_four
              "M" "s" "C" "123456789" " and msc5" eq_refl eq_refl
              (proj1 (Nat.leb_le 5 9) eq_refl))
    as (Hfind & _ & _).
  destruct (long_digit_run_yields_first_four
              "M" "s" "C" "123456789" "" eq_refl eq_refl
              (proj1 (Nat.leb_le 5 9) eq_refl))
    as (_ & Hextract & _).
  split; [exact Hfind|exact Hextract].
Defined.

(** ** Ids are compared as strings *)

Lemma str_app_inj_l (p a b : string) : p ++ a = p ++ b -> a = b.
Proof.
  induction p as [|c p IH]; [auto|]. cbn. intros [= H]. now apply IH.
Qed.

Lemma issue_url_inj (a b : string) : issue_url a = issue_url b -> a = b.
Proof.
  unfold issue_url. intros H. now do 3 apply str_app_inj_l in H.
Qed.

Lemma issue_api_url_inj (a b : string) : issue_api_url a = issue_api_url b -> a = b.
Proof.
  unfold issue_api_url. intros H. now do 3 apply str_app_inj_l in H.
Qed.

(** The requests of a whole run are those of the resolution loop. *)
Lemma respond_requests (self : Plugin) (event : MessageEvent)
      (match_ : list (string * string)) :
  accepted self event ->
  requests (trace (respond_to_message self event match_))
  = requests (trace (resolve_each self event (collect_ids match_ []) [])).
Proof.
  intros Haccepted. rewrite (respond_accepted self event match_ Haccepted).
  cbn zeta.
  destruct (outcome (resolve_each self event (collect_ids match_ []) []))
    as [[[|first others]|]|e]; try reflexivity.
  - unfold trace at 1; cbn [fst]. unfold requests.
    rewrite flat_map_app. cbn. now rewrite app_nil_r.
  - destruct (compose_message self (first :: others)); [|reflexivity].
    unfold trace at 1; cbn [fst]. unfold requests.
    rewrite flat_map_app. cbn. now rewrite app_nil_r.
Qed.

(** C10.  Two matched digit strings that differ as strings are both kept
    by the Extractor, whatever numbers they spell, and they name
    different tracker and issue URLs.  For the body "msc1 and msc01" the
    ids are ["1"] and ["01"]; unless the first lookup raises, the
    handler requests both; and every record carries the very id it was
    resolved from, with the URL built from that id. *)
Theorem ids_differing_in_leading_zeros_are_kept :
  (forall data a b,
      In a (finditer data) -> In b (finditer data) -> a <> b ->
      In a (extract data) /\ In b (extract data)
      /\ issue_api_url a <> issue_api_url b
      /\ issue_url a <> issue_url b)
  /\ extract "msc1 and msc01" = ["1"; "01"]
  /\ (forall self event,
         accepted self event ->
         (exists r, outcome (_resolve_msc self "1") = Ok r) ->
         requests (trace (respond_to_message self event
                                             (passive_match "msc1 and msc01")))
         = [issue_api_url "1"; issue_api_url "01"])
  /\ (forall self msc_id msc,
         outcome (_resolve_msc self msc_id) = Ok (Some msc) ->
         id msc = msc_id /\ url msc = issue_url msc_id).
Proof.
  split; [|split; [reflexivity|split]].
  - intros data a b Ha Hb Hneq. rewrite extract_first_occurrences.
    repeat split.
    + now apply first_occurrences_In.
    + now apply first_occurrences_In.
    + intros H. now apply Hneq, issue_api_url_inj.
    + intros H. now apply Hneq, issue_url_inj.
  - intros self event Haccepted Hfirst.
    rewrite (respond_requests self event _ Haccepted).
    change (collect_ids (passive_match "msc1 and msc01") []) with ["1"; "01"].
    destruct (outcome (_resolve_msc self "01")) as [r|e] eqn:Esecond.
    + rewrite (resolve_each_all_ok self event ["1"; "01"]).
      * unfold trace; cbn [fst]. apply lookup_events_requests.
      * constructor; [exact Hfirst|].
        constructor; [now exists r|constructor].
    + change ["1"; "01"] with (["1"] ++ ["01"])%list.
      rewrite (resolve_each_raises self event ["1"] [] "01" e
                 (Forall_cons _ Hfirst (Forall_nil _)) Esecond []).
      destruct (is_ClientResponseError e); unfold trace; cbn [fst].
      * unfold requests. rewrite flat_map_app. reflexivity.
      * reflexivity.
  - apply resolve_some_fields.
Qed.

Lemma ids_differing_in_leading_zeros_are_kept_witness :
  In "1" (finditer "msc1 and msc01") /\ In "01" (finditer "msc1 and msc01")
  /\ "1" <> "01"
  /\ In "1" (extract "msc1 and msc01") /\ In "01" (extract "msc1 and msc01")
  /\ issue_api_url "1" <> issue_api_url "01"
  /\ requests (trace (respond_to_message
                        (sample_plugin answer_proposal)
                        (sample_event TEXT "msc1 and msc01")
                        (passive_match "msc1 and msc01")))
     = [issue_api_url "1"; issue_api_url "01"].
Proof.
  assert (In "1" (finditer "msc1 and msc01")) as H1 by (left; reflexivity).
  assert (In "01" (finditer "msc1 and msc01")) as H01
      by (right; left; reflexivity).
  assert ("1" <> "01") as Hneq by discriminate.
  destruct ids_differing_in_leading_zeros_are_kept as (Hkept & _ & Hboth & _).
  destruct (Hkept "msc1 and msc01" "1" "01" H1 H01 Hneq)
    as (Hin1 & Hin01 & Hapi & _).
  repeat (split; [assumption|]).
  apply Hboth.
  - split; [discriminate|]. split; [reflexivity|now left].
  - eexists. reflexivity.
Defined.

(** * Further properties *)

(** ** Every mention is found *)

Lemma m_is_no_other_part (a : ascii) :
  lit_ci "m" "M" a = true ->
  lit_ci "s" "S" a = false /\ lit_ci "c" "C" a = false /\ is_digit a = false.
Proof.
  destruct a as [[] [] [] [] [] [] [] []]; cbn; intros H;
    try discriminate H; repeat split.
Qed.

(** A run of digits that is followed, further on, by a character that is
    not a digit ends before that character. *)
Lemma digits_end_before (ds : string) :
  forall rest before a tail,
    all_digits ds = true ->
    is_digit a = false ->
    ds ++ rest = before ++ String a tail ->
    String.length ds <= String.length before.
Proof.
  induction ds as [|x ds IH]; intros rest before a tail Hds Ha Heq.
  - cbn. lia.
  - cbn [all_digits] in Hds. apply andb_prop in Hds as [Hx Hds].
    destruct before as [|y before]; cbn in Heq; injection Heq as -> Heq.
    + congruence.
    + cbn. apply le_n_S. exact (IH _ _ _ _ Hds Ha Heq).
Qed.

Lemma match_here_at_mention (a b c d : ascii) (rest : string) :
  lit_ci "m" "M" a && lit_ci "s" "S" b && lit_ci "c" "C" c = true ->
  is_digit d = true ->
  match_here (String a (String b (String c (String d rest))))
  = Some (take_digits 4 (String d rest)).
Proof.
  intros Hci Hd. unfold match_here. rewrite Hci.
  cbn [take_digits]. now rewrite Hd.
Qed.

Lemma finditer_from_complete (a b c d : ascii) (rest : string) :
  lit_ci "m" "M" a && lit_ci "s" "S" b && lit_ci "c" "C" c = true ->
  is_digit d = true ->
  forall before skip,
    skip <= String.length before ->
    In (take_digits 4 (String d rest))
       (finditer_from skip
          (before ++ String a (String b (String c (String d rest))))).
Proof.
  intros Hci Hd.
  assert (lit_ci "m" "M" a = true) as Hm.
  { apply andb_prop in Hci as [Hci _]. now apply andb_prop in Hci as [Hci _]. }
  destruct (m_is_no_other_part a Hm) as (Hnot_s & Hnot_c & Hnot_digit).
  induction before as [|c0 tl IH]; intros skip Hskip.
  - cbn in Hskip. assert (skip = 0) as -> by lia.
    cbn [append finditer_from].
    rewrite (match_here_at_mention a b c d rest Hci Hd). now left.
  - cbn [append finditer_from]. destruct skip as [|k].
    + destruct (match_here (String c0 (tl ++ String a (String b (String c (String d rest))))))
        as [ds|] eqn:E; [|apply IH; lia].
      right. apply IH.
      destruct (match_here_spec _ _ E)
        as (a' & b' & c' & rest' & Heq & Hci' & _ & Hds & _).
      apply andb_prop in Hci' as [Hci' Hc']. apply andb_prop in Hci' as [_ Hb'].
      injection Heq as _ Heq.
      destruct tl as [|t1 [|t2 tl']]; cbn in Heq.
      * injection Heq as -> _. congruence.
      * injection Heq as _ -> _. congruence.
      * injection Heq as _ _ Heq. symmetry in Heq.
        pose proof (digits_end_before ds rest' tl' a _ Hds Hnot_digit Heq).
        cbn. lia.
    + apply IH. cbn in Hskip. lia.
Qed.

(** X1.  Wherever the letters m, s, c (in either case) are followed by a
    digit, the digits that follow, up to four of them, are among the
    extracted ids: no mention is lost, wherever it stands in the body and
    whatever precedes it. *)
Theorem every_mention_is_extracted (data before digits_on : string) :
  mentions_msc_at data before digits_on ->
  In (take_digits 4 digits_on) (finditer data)
  /\ In (take_digits 4 digits_on) (extract data).
Proof.
  intros (a & b & c & d & rest & -> & -> & Hci & Hd).
  assert (In (take_digits 4 (String d rest))
             (finditer (before ++ String a (String b (String c (String d rest))))))
    as Hin.
  { unfold finditer. apply finditer_from_complete; [assumption|assumption|lia]. }
  split; [exact Hin|].
  rewrite extract_first_occurrences. now apply first_occurrences_In.
Qed.

Lemma every_mention_is_extracted_witness :
  mentions_msc_at "see msc99 and xMSC007!" "see msc99 and x" "007!"
  /\ In "007" (extract "see msc99 and xMSC007!").
Proof.
  assert (mentions_msc_at "see msc99 and xMSC007!" "see msc99 and x" "007!")
    as Hmention.
  { exists "M"%char, "S"%char, "C"%char, "0"%char, "07!".
    repeat split. }
  split; [exact Hmention|].
  exact (proj2 (every_mention_is_extracted _ _ _ Hmention)).
Defined.

(** X2.  A body yields no id exactly when it has no mention at all, that
    is, when the letters m, s, c are nowhere followed by a digit. *)
Theorem no_id_iff_no_mention (data : string) :
  extract data = []
  <-> ~ (exists before digits_on, mentions_msc_at data before digits_on).
Proof.
  split.
  - intros Hempty (before & digits_on & Hmention).
    assert (In (take_digits 4 digits_on) (extract data)) as Hin.
    { rewrite extract_first_occurrences. apply first_occurrences_In.
      destruct Hmention as (a & b & c & d & rest & -> & -> & Hci & Hd).
      unfold finditer. apply finditer_from_complete;
        [assumption|assumption|lia]. }
    rewrite Hempty in Hin. exact Hin.
  - intros Hnone. destruct (extract data) as [|x tl] eqn:E; [reflexivity|].
    exfalso. apply Hnone.
    assert (In x (finditer data)) as Hin.
    { apply (first_occurrences_In x (finditer data)).
      rewrite <- extract_first_occurrences, E. now left. }
    destruct (finditer_from_sound data 0 x Hin)
      as ((before & a & b & c & rest & Hdata & Hci & _) & Hdigits & Hlen & _).
    destruct x as [|d x']; [cbn in Hlen; lia|].
    cbn [all_digits] in Hdigits. apply andb_prop in Hdigits as [Hd _].
    exists before, (String d (x' ++ rest)), a, b, c, d, (x' ++ rest).
    repeat split; assumption.
Qed.

Lemma no_id_iff_no_mention_witness :
  extract "the MSC process, 2024" = []
  /\ ~ (exists before digits_on,
           mentions_msc_at "the MSC process, 2024" before digits_on).
Proof.
  split; [reflexivity|].
  exact (proj1 (no_id_iff_no_mention "the MSC process, 2024") eq_refl).
Defined.

(** ** Repeated ids *)

Lemma str_in_In (x : string) (l : list string) : str_in x l = true <-> In x l.
Proof.
  unfold str_in. rewrite existsb_exists. split.
  - intros (y & Hy & Heq). apply String.eqb_eq in Heq. now subst.
  - intros H. exists x. split; [exact H|apply String.eqb_refl].
Qed.

(** The loop of lines 53-56 run over two stretches of matches is the
    loop over the second stretch started from the result of the first. *)
Lemma collect_ids_app (ms extra : list (string * string)) :
  forall acc, collect_ids (ms ++ extra) acc = collect_ids extra (collect_ids ms acc).
Proof.
  induction ms as [|[whole x] tl IH]; intros acc; [reflexivity|].
  cbn [app collect_ids]. destruct (negb (str_in x acc)); apply IH.
Qed.

Lemma collect_ids_In (ms : list (string * string)) (x : string) :
  In x (collect_ids ms []) <-> In x (map snd ms).
Proof.
  rewrite collect_ids_spec. cbn [app].
  rewrite first_occurrences_In, filter_In. cbn. tauto.
Qed.

(** X3.  Matches whose ids were all seen earlier in the same message add
    nothing: the list of ids is the same as without them, and so is
    everything the handler does. *)
Theorem repeated_ids_change_nothing (self : Plugin) (event : MessageEvent)
        (ms extra : list (string * string)) :
  (forall x, In x (map snd extra) -> In x (map snd ms)) ->
  collect_ids (ms ++ extra) [] = collect_ids ms []
  /\ respond_to_message self event (ms ++ extra)
     = respond_to_message self event ms.
Proof.
  intros Hseen.
  assert (collect_ids (ms ++ extra) [] = collect_ids ms []) as Hids.
  { rewrite collect_ids_app, (collect_ids_spec extra).
    etransitivity; [|apply app_nil_r]. f_equal.
    replace (filter (fun y => negb (str_in y (collect_ids ms [])))
                    (map snd extra)) with (@nil string); [reflexivity|].
    symmetry. induction (map snd extra) as [|y tl IH]; [reflexivity|].
    cbn [filter].
    assert (str_in y (collect_ids ms []) = true) as ->.
    { apply str_in_In, collect_ids_In, Hseen. now left. }
    cbn [negb]. apply IH. intros x Hx. apply Hseen. now right. }
  split; [exact Hids|].
  unfold respond_to_message. now rewrite Hids.
Qed.

Lemma repeated_ids_change_nothing_witness :
  (forall x, In x (map snd (passive_match "MSC0001, msc2"))
             -> In x (map snd (passive_match "msc2 msc0001")))
  /\ collect_ids (passive_match "msc2 msc0001" ++ passive_match "MSC0001, msc2") []
     = ["2"; "0001"].
Proof.
  assert (forall x, In x (map snd (passive_match "MSC0001, msc2"))
                    -> In x (map snd (passive_match "msc2 msc0001"))) as Hseen.
  { intros x [<- | [<- | []]]; [right; left | left]; reflexivity. }
  split; [exact Hseen|].
  exact (proj1 (repeated_ids_change_nothing
                  (sample_plugin answer_proposal) (sample_event TEXT "")
                  (passive_match "msc2 msc0001") (passive_match "MSC0001, msc2")
                  Hseen)).
Defined.

(** ** Whole runs of the handler *)

(** Either a guard ends the run at once or the event is accepted. *)
Lemma respond_cases (self : Plugin) (event : MessageEvent)
      (match_ : list (string * string)) :
  respond_to_message self event match_ = ([], Ok tt) \/ accepted self event.
Proof.
  unfold respond_to_message, accepted.
  destruct (String.eqb (sender event) (client_mxid self)) eqn:Es; [now left|].
  destruct (get_edit (content event)) eqn:Ee; [now left|].
  destruct (in_text_or_emote (msgtype (content event))) eqn:Et; [|now left].
  right. apply String.eqb_neq in Es. repeat split; [exact Es|].
  destruct (msgtype (content event)); try discriminate Et; auto.
Qed.

Lemma compose_message_nonempty (self : Plugin) (first : MSC) (others : list MSC) :
  exists message, compose_message self (first :: others) = Ok message.
Proof.
  unfold compose_message.
  destruct (1 <? List.length (first :: others))%nat; eexists; reflexivity.
Qed.

Lemma requests_app (t1 t2 : list effect) :
  requests (t1 ++ t2) = (requests t1 ++ requests t2)%list.
Proof. apply flat_map_app. Qed.

Section Runs.

Variable self : Plugin.
Variable event : MessageEvent.

(** The loop asks for the ids one after the other, as far as it gets. *)
Lemma resolve_each_requests (msc_ids : list string) :
  forall mscs, exists done rest,
    msc_ids = (done ++ rest)%list
    /\ requests (trace (resolve_each self event msc_ids mscs))
       = map issue_api_url done
    /\ (forall found,
           outcome (resolve_each self event msc_ids mscs) = Ok (Some found) ->
           rest = []).
Proof.
  induction msc_ids as [|i tl IH]; intros mscs.
  - exists [], []. repeat split.
  - rewrite resolve_each_cons.
    destruct (outcome (_resolve_msc self i)) as [[msc|]|e]; cbn zeta.
    + destruct (IH (mscs ++ [msc])%list) as (done & rest & -> & Hreq & Hend).
      exists (i :: done), rest. unfold trace at 1, outcome at 1; cbn [fst snd].
      rewrite requests_app, Hreq. repeat split. exact Hend.
    + destruct (IH mscs) as (done & rest & -> & Hreq & Hend).
      exists (i :: done), rest. unfold trace at 1, outcome at 1; cbn [fst snd].
      rewrite requests_app, Hreq. repeat split. exact Hend.
    + exists [i], tl. destruct (is_ClientResponseError e);
        repeat split; discriminate.
Qed.


End Runs.

Lemma NoDup_map_injective {A B} (f : A -> B) (l : list A) :
  (forall x y, f x = f y -> x = y) -> NoDup l -> NoDup (map f l).
Proof.
  intros Hinj. induction 1 as [|x tl Hx _ IH]; [constructor|].
  cbn. constructor; [|exact IH].
  rewrite in_map_iff. intros (y & Hy & Hin). apply Hinj in Hy. now subst.
Qed.

(** X4.  In any run the handler asks the tracker for the extracted ids
    in order, one request each, as far as it gets: the URLs requested
    are those of an initial stretch of the ids, and no URL is requested
    twice. *)
Theorem requests_follow_the_ids_once (self : Plugin) (event : MessageEvent)
        (match_ : list (string * string)) :
  exists done rest,
    collect_ids match_ [] = (done ++ rest)%list
    /\ requests (trace (respond_to_message self event match_))
       = map issue_api_url done
    /\ NoDup (requests (trace (respond_to_message self event match_))).
Proof.
  destruct (respond_cases self event match_) as [Hnone | Haccepted].
  - exists [], (collect_ids match_ []). rewrite Hnone.
    repeat split. constructor.
  - rewrite (respond_requests self event match_ Haccepted).
    destruct (resolve_each_requests self event (collect_ids match_ []) [])
      as (done & rest & Hids & Hreq & _).
    exists done, rest. rewrite Hreq. repeat split; [exact Hids|].
    apply NoDup_map_injective; [apply issue_api_url_inj|].
    apply (NoDup_app_remove_r done rest). rewrite <- Hids.
    rewrite collect_ids_spec. cbn [app]. apply first_occurrences_NoDup.
Qed.

(** X5.  A run posts at most one message.  When it posts one, that is
    the last thing it does, after every extracted id has been looked up;
    the message is a notice to the room of the event, sent with the
    rendering of its own text, and the run ends normally. *)
Theorem one_reply_at_most_and_last (self : Plugin) (event : MessageEvent)
        (match_ : list (string * string)) :
  replies (trace (respond_to_message self event match_)) = []
  \/ exists before text,
      trace (respond_to_message self event match_)
      = (before ++ [SendMessage (room_id event) NOTICE text
                                (markdown_render self text)])%list
      /\ replies before = []
      /\ requests before = map issue_api_url (collect_ids match_ [])
      /\ outcome (respond_to_message self event match_) = Ok tt.
Proof.
  destruct (respond_cases self event match_) as [Hnone | Haccepted].
  - left. now rewrite Hnone.
  - rewrite (respond_accepted self event match_ Haccepted). cbn zeta.
    pose proof (resolve_each_no_reply self event (collect_ids match_ []) [])
      as Hquiet.
    destruct (resolve_each_requests self event (collect_ids match_ []) [])
      as (done & rest & Hids & Hreq & Hend).
    destruct (outcome (resolve_each self event (collect_ids match_ []) []))
      as [[[|first others]|]|e] eqn:Eloop.
    + left. unfold trace at 1; cbn [fst]. unfold replies in *.
      now rewrite filter_app, Hquiet.
    + destruct (compose_message_nonempty self first others) as [text ->].
      right.
      exists (trace (resolve_each self event (collect_ids match_ []) [])
                ++ [LogDebug ("Sending response to event " ++ event_id event)])%list,
             text.
      unfold trace at 1, outcome at 1; cbn [fst snd].
      rewrite <- app_assoc. split; [reflexivity|].
      split; [unfold replies in *; now rewrite filter_app, Hquiet|].
      split; [|reflexivity].
      rewrite requests_app, Hreq. cbn. rewrite app_nil_r.
      rewrite Hids, (Hend _ eq_refl). now rewrite app_nil_r.
    + left. exact Hquiet.
    + left. exact Hquiet.
Qed.

Lemma records_of_none (self : Plugin) (msc_ids : list string) :
  Forall (fun i => outcome (_resolve_msc self i) = Ok None) msc_ids ->
  records_of self msc_ids = [].
Proof.
  unfold records_of. induction 1 as [|i tl Hi _ IH]; [reflexivity|].
  cbn [flat_map]. now rewrite Hi, IH.
Qed.

(** X6.  When no extracted id resolves to a record (each turns out to be
    an ordinary issue, or there is no id at all), the run looks every id
    up, writes one debug line saying that nothing suitable was found, and
    ends normally without posting anything. *)
Theorem nothing_found_nothing_posted (self : Plugin) (event : MessageEvent)
        (match_ : list (string * string)) :
  accepted self event ->
  Forall (fun i => outcome (_resolve_msc self i) = Ok None)
         (collect_ids match_ []) ->
  respond_to_message self event match_
  = ((flat_map (lookup_events event) (collect_ids match_ [])
        ++ [LogDebug "No suitable MSCs found. Not responding"])%list,
     Ok tt).
Proof.
  intros Haccepted Hnone.
  rewrite (respond_accepted self event match_ Haccepted). cbn zeta.
  assert (Forall (fun i => exists r, outcome (_resolve_msc self i) = Ok r)
                 (collect_ids match_ [])) as Hok.
  { eapply Forall_impl; [|exact Hnone]. intros i Hi. now exists None. }
  rewrite (resolve_each_all_ok self event _ Hok []). cbn [app].
  rewrite (records_of_none self _ Hnone). reflexivity.
Qed.

Lemma nothing_found_nothing_posted_witness :
  accepted (sample_plugin answer_plain_issue) (sample_event EMOTE "likes msc5")
  /\ respond_to_message (sample_plugin answer_plain_issue)
                        (sample_event EMOTE "likes msc5")
                        (passive_match "likes msc5")
     = ([LogDebug "Resolving MSC5 in room !room:example.org in response to $event";
         HttpGet (issue_api_url "5");
         LogDebug "No suitable MSCs found. Not responding"],
        Ok tt).
Proof.
  assert (accepted (sample_plugin answer_plain_issue)
                   (sample_event EMOTE "likes msc5")) as Haccepted.
  { split; [discriminate|]. split; [reflexivity|now right]. }
  split; [exact Haccepted|].
  apply (nothing_found_nothing_posted
           (sample_plugin answer_plain_issue) (sample_event EMOTE "likes msc5")
           (passive_match "likes msc5") Haccepted).
  constructor; [reflexivity|constructor].
Defined.

(** X7.  Whether the entries of a reply carry the [MSCid:] prefix goes by
    the number of records found, not by the number of ids mentioned: when
    several ids are looked up and exactly one of them is a proposal, the
    reply is that record in the bare form. *)
Theorem lone_record_is_posted_bare (self : Plugin) (event : MessageEvent)
        (match_ : list (string * string)) (msc : MSC) :
  accepted self event ->
  Forall (fun i => exists r, outcome (_resolve_msc self i) = Ok r)
         (collect_ids match_ []) ->
  records_of self (collect_ids match_ []) = [msc] ->
  let text := "[" ++ py_str self (title msc) ++ "](" ++ url msc ++ ") by "
              ++ author msc in
  replies (trace (respond_to_message self event match_))
  = [SendMessage (room_id event) NOTICE text (markdown_render self text)].
Proof.
  intros Haccepted Hok Hrecords text.
  rewrite (respond_accepted self event match_ Haccepted). cbn zeta.
  rewrite (resolve_each_all_ok self event _ Hok []). cbn [app].
  rewrite Hrecords. unfold outcome, trace; cbn [fst snd].
  change (compose_message self [msc]) with (@Ok string text). cbn [fst].
  pose proof (lookup_events_replies event (collect_ids match_ [])) as Hquiet.
  unfold replies in *. now rewrite filter_app, Hquiet.
Qed.

Lemma lone_record_is_posted_bare_witness :
  accepted (sample_plugin answer_1_among_issues)
           (sample_event TEXT "msc2, msc1 or msc3?")
  /\ collect_ids (passive_match "msc2, msc1 or msc3?") [] = ["2"; "1"; "3"]
  /\ replies (trace (respond_to_message
                       (sample_plugin answer_1_among_issues)
                       (sample_event TEXT "msc2, msc1 or msc3?")
                       (passive_match "msc2, msc1 or msc3?")))
     = [SendMessage "!room:example.org" NOTICE
          "[Example](https://github.com/matrix-org/matrix-spec-proposals/issues/1) by @alice"
          "[Example](https://github.com/matrix-org/matrix-spec-proposals/issues/1) by @alice"].
Proof.
  assert (accepted (sample_plugin answer_1_among_issues)
                   (sample_event TEXT "msc2, msc1 or msc3?")) as Haccepted.
  { split; [discriminate|]. split; [reflexivity|now left]. }
  split; [exact Haccepted|]. split; [reflexivity|].
  apply (lone_record_is_posted_bare
           (sample_plugin answer_1_among_issues)
           (sample_event TEXT "msc2, msc1 or msc3?")
           (passive_match "msc2, msc1 or msc3?")
           {| id := "1"; title := PStr "Example"; author := "@alice";
              url := issue_url "1" |} Haccepted).
  - repeat (constructor; [eexists; reflexivity|]). constructor.
  - reflexivity.
Defined.

(** X8.  An accepted event (a text or an emote from someone else that is
    not an edit) with at least one id always gets as far as the tracker:
    the run opens with the debug line for the first id and the request
    for it. *)
Theorem accepted_event_starts_a_lookup (self : Plugin) (event : MessageEvent)
        (match_ : list (string * string)) (first : string) (others : list string) :
  accepted self event ->
  collect_ids match_ [] = first :: others ->
  exists then_,
    trace (respond_to_message self event match_)
    = LogDebug (resolving_msg first event)
      :: HttpGet (issue_api_url first) :: then_.
Proof.
  intros Haccepted Hids.
  rewrite (respond_accepted self event match_ Haccepted). cbn zeta.
  rewrite Hids.
  assert (exists t, trace (resolve_each self event (first :: others) [])
                    = LogDebug (resolving_msg first event)
                      :: HttpGet (issue_api_url first) :: t) as [t Ht].
  { rewrite resolve_each_cons.
    destruct (outcome (_resolve_msc self first)) as [[msc|]|e]; cbn zeta;
      [| |destruct (is_ClientResponseError e)]; eexists; reflexivity. }
  rewrite Ht.
  destruct (outcome (resolve_each self event (first :: others) []))
    as [[[|m ms]|]|e]; try (eexists; reflexivity).
  destruct (compose_message self (m :: ms)); eexists; reflexivity.
Qed.

Lemma accepted_event_starts_a_lookup_witness :
  accepted (sample_plugin answer_unreachable) (sample_event EMOTE "reads MSC12")
  /\ exists then_,
      trace (respond_to_message (sample_plugin answer_unreachable)
                                (sample_event EMOTE "reads MSC12")
                                (passive_match "reads MSC12"))
      = LogDebug (resolving_msg "12" (sample_event EMOTE "reads MSC12"))
        :: HttpGet (issue_api_url "12") :: then_.
Proof.
  assert (accepted (sample_plugin answer_unreachable)
                   (sample_event EMOTE "reads MSC12")) as Haccepted.
  { split; [discriminate|]. split; [reflexivity|now right]. }
  split; [exact Haccepted|].
  exact (accepted_event_starts_a_lookup
           (sample_plugin answer_unreachable) (sample_event EMOTE "reads MSC12")
           (passive_match "reads MSC12") "12" [] Haccepted eq_refl).
Defined.



(** ** The resolver on unusual responses *)

Lemma status_check_passes (response : ClientResponse) :
  (status response < 400)%Z ->
  (if (status response =? 200)%Z then ret tt else raise_for_status response)
  = ret tt.
Proof.
  intros Hstatus. destruct (status response =? 200)%Z; [reflexivity|].
  unfold raise_for_status.
  destruct (400 <=? status response)%Z eqn:E; [|reflexivity].
  apply Z.leb_le in E. lia.
Qed.

Lemma scan_labels_skip (label : pyval) (tl : list pyval) :
  label_not_proposal label -> scan_labels (label :: tl) = scan_labels tl.
Proof.
  intros (f & -> & Hl). cbn [scan_labels py_get].
  destruct (assoc "name" f) as [v|] eqn:Ev; [|reflexivity].
  destruct (py_eq_str v PROPOSAL_LABEL) eqn:Eq; [|reflexivity].
  exfalso. apply Hl. destruct v; try discriminate Eq.
  cbn in Eq. apply String.eqb_eq in Eq. now subst.
Qed.

Lemma scan_labels_stops (before after : list pyval) (label : pyval) :
  Forall label_not_proposal before ->
  label_named PROPOSAL_LABEL label ->
  scan_labels (before ++ label :: after) = Ok true.
Proof.
  intros Hbefore (fields & -> & Hname).
  induction Hbefore as [|l tl Hl _ IH].
  - cbn. now rewrite Hname.
  - cbn [app]. now rewrite (scan_labels_skip l _ Hl).
Qed.

Lemma scan_labels_bad_entry (before after : list pyval) (entry : pyval) :
  Forall label_not_proposal before ->
  ~ is_object entry ->
  scan_labels (before ++ entry :: after) = Raise AttributeError.
Proof.
  intros Hbefore Hentry.
  induction Hbefore as [|l tl Hl _ IH].
  - cbn [app scan_labels]. destruct entry; try reflexivity.
    exfalso. apply Hentry. now exists entries.
  - cbn [app]. now rewrite (scan_labels_skip l _ Hl).
Qed.

(** X10.  The scan over the labels ends at the first label named
    [PROPOSAL_LABEL]: what follows it in the list is not looked at, so an
    entry there that is not even an object does no harm.  An entry that
    is not an object and comes before any proposal label makes the
    resolver raise [AttributeError]. *)
Theorem label_scan_ends_at_the_proposal_label
        (self : Plugin) (msc_id : string) (response : ClientResponse)
        (entries : list (string * pyval)) (before after : list pyval) :
  http_get self (issue_api_url msc_id) = Ok response ->
  status response = 200%Z ->
  json response = Ok (PDict entries) ->
  Forall label_not_proposal before ->
  (forall label,
      label_named PROPOSAL_LABEL label ->
      has_labels entries (before ++ label :: after) ->
      outcome (_resolve_msc self msc_id) =
      match build_msc msc_id (PDict entries) with
      | Ok msc => Ok (Some msc)
      | Raise e => Raise e
      end)
  /\ (forall entry,
         ~ is_object entry ->
         has_labels entries (before ++ entry :: after) ->
         outcome (_resolve_msc self msc_id) = Raise AttributeError).
Proof.
  intros Hget Hstatus Hjson Hbefore.
  assert (forall labels,
             has_labels entries labels ->
             outcome (_resolve_msc self msc_id) =
             match scan_labels labels with
             | Ok true =>
                 match build_msc msc_id (PDict entries) with
                 | Ok msc => Ok (Some msc)
                 | Raise e => Raise e
                 end
             | Ok false => Ok None
             | Raise e => Raise e
             end) as Hresolve.
  { intros labels Hlabels.
    apply (resolve_below_400 self msc_id response entries labels);
      try assumption. lia. }
  split.
  - intros label (fields & -> & Hname) Hlabels.
    rewrite (Hresolve _ Hlabels).
    rewrite (scan_labels_stops before after (PDict fields) Hbefore);
      [reflexivity|]. now exists fields.
  - intros entry Hentry Hlabels.
    rewrite (Hresolve _ Hlabels).
    now rewrite (scan_labels_bad_entry before after entry Hbefore Hentry).
Qed.

Lemma label_scan_ends_at_the_proposal_label_witness :
  Forall label_not_proposal [PDict [("name", PStr "bug")]]
  /\ ~ is_object (PStr "wontfix")
  /\ outcome (_resolve_msc (sample_plugin answer_trailing_label) "3")
     = Ok (Some {| id := "3"; title := PStr "Unknown title";
                   author := "@Unknown author"; url := issue_url "3" |}).
Proof.
  assert (Forall label_not_proposal [PDict [("name", PStr "bug")]]) as Hbug.
  { constructor; [|constructor].
    exists [("name", PStr "bug")]. split; [reflexivity|]. cbn. discriminate. }
  split; [exact Hbug|]. split; [intros [fields H]; discriminate H|].
  refine (proj1 (label_scan_ends_at_the_proposal_label
                   (sample_plugin answer_trailing_label) "3"
                   {| status := 200;
                      json := Ok (PDict [("labels",
                                          PList [PDict [("name", PStr "bug")];
                                                 PDict [("name", PStr "proposal")];
                                                 PStr "wontfix"])]) |}
                   [("labels", PList [PDict [("name", PStr "bug")];
                                      PDict [("name", PStr "proposal")];
                                      PStr "wontfix"])]
                   [PDict [("name", PStr "bug")]] [PStr "wontfix"]
                   eq_refl eq_refl eq_refl Hbug)
                (PDict [("name", PStr "proposal")]) _ (or_introl eq_refl)).
  exists [("name", PStr "proposal")]. split; reflexivity.
Defined.

(** X11.  A status-200 response whose body is not a JSON object (an
    array, a string, [null]) makes the resolver raise [AttributeError];
    a body whose ["labels"] entry is [null], a boolean or a number makes
    it raise [TypeError].  Either way the one request has been made and
    no record is returned. *)
Theorem malformed_body_raises (self : Plugin) (msc_id : string)
        (response : ClientResponse) (response_body : pyval) :
  http_get self (issue_api_url msc_id) = Ok response ->
  status response = 200%Z ->
  json response = Ok response_body ->
  (~ is_object response_body ->
   _resolve_msc self msc_id
   = ([HttpGet (issue_api_url msc_id)], Raise AttributeError))
  /\ (forall entries labels_value,
         response_body = PDict entries ->
         assoc "labels" entries = Some labels_value ->
         py_iter labels_value = Raise TypeError ->
         _resolve_msc self msc_id
         = ([HttpGet (issue_api_url msc_id)], Raise TypeError)).
Proof.
  intros Hget Hstatus Hjson.
  assert (outcome (_resolve_msc self msc_id)
          = outcome (labels <- lift (py_get response_body "labels" (PList [])) ;;
                     labels <- lift (py_iter labels) ;;
                     is_msc <- lift (scan_labels labels) ;;
                     if negb is_msc then ret None
                     else
                       msc_title <- lift (py_get response_body "title"
                                                 (PStr "Unknown title")) ;;
                       user <- lift (py_get response_body "user" (PDict [])) ;;
                       login <- lift (py_get user "login" (PStr "Unknown author")) ;;
                       msc_author <- lift (py_concat_str "@" login) ;;
                       ret (Some {| id := msc_id; title := msc_title;
                                    author := msc_author;
                                    url := issue_url msc_id |}))) as Hrest.
  { unfold _resolve_msc. rewrite bind_perform. unfold outcome at 1. cbn [snd].
    rewrite Hget, bind_lift_ok, (status_check_passes response)
      by (rewrite Hstatus; reflexivity).
    now rewrite bind_ret, Hjson, bind_lift_ok. }
  split.
  - intros Hbody. rewrite resolve_eta, Hrest. f_equal.
    destruct response_body; try reflexivity.
    exfalso. apply Hbody. now exists entries.
  - intros entries labels_value -> Hlabels Hiter.
    rewrite resolve_eta, Hrest. f_equal.
    cbn [py_get]. rewrite Hlabels, bind_lift_ok, Hiter. reflexivity.
Qed.

Lemma malformed_body_raises_witness :
  ~ is_object (PList [])
  /\ _resolve_msc (sample_plugin answer_array) "1"
     = ([HttpGet (issue_api_url "1")], Raise AttributeError)
  /\ py_iter PNone = Raise TypeError
  /\ _resolve_msc (sample_plugin answer_null_labels) "1"
     = ([HttpGet (issue_api_url "1")], Raise TypeError).
Proof.
  assert (~ is_object (PList [])) as Harray
      by (intros [fields H]; discriminate H).
  split; [exact Harray|]. split; [|split; [reflexivity|]].
  - apply (proj1 (malformed_body_raises
                    (sample_plugin answer_array) "1"
                    {| status := 200; json := Ok (PList []) |} (PList [])
                    eq_refl eq_refl eq_refl)).
    exact Harray.
  - exact (proj2 (malformed_body_raises
                    (sample_plugin answer_null_labels) "1"
                    {| status := 200;
                       json := Ok (PDict [("labels", PNone)]) |}
                    (PDict [("labels", PNone)])
                    eq_refl eq_refl eq_refl)
                 [("labels", PNone)] PNone eq_refl eq_refl eq_refl).
Defined.

(** X12.  A proposal whose response has a creator entry that is not an
    object ([null], say) makes the resolver raise [AttributeError], and
    a creator whose login is not a string makes it raise [TypeError]: the
    defaults of lines 123-124 stand in for missing keys only. *)
Theorem unusable_creator_raises (self : Plugin) (msc_id : string)
        (response : ClientResponse) (entries : list (string * pyval))
        (labels : list pyval) :
  http_get self (issue_api_url msc_id) = Ok response ->
  status response = 200%Z ->
  json response = Ok (PDict entries) ->
  has_labels entries labels ->
  Forall is_object labels ->
  Exists (label_named PROPOSAL_LABEL) labels ->
  (forall creator,
      assoc "user" entries = Some creator ->
      ~ is_object creator ->
      outcome (_resolve_msc self msc_id) = Raise AttributeError)
  /\ (forall user login,
         assoc "user" entries = Some (PDict user) ->
         assoc "login" user = Some login ->
         (forall s, login <> PStr s) ->
         outcome (_resolve_msc self msc_id) = Raise TypeError).
Proof.
  intros Hget Hstatus Hjson Hlabels Hobjects Hfound.
  assert (outcome (_resolve_msc self msc_id) =
          match build_msc msc_id (PDict entries) with
          | Ok msc => Ok (Some msc)
          | Raise e => Raise e
          end) as ->.
  { rewrite (resolve_below_400 self msc_id response entries labels);
      try assumption; [|lia].
    now rewrite scan_labels_found. }
  rewrite build_msc_cases. cbn zeta. split.
  - intros creator -> Hcreator. destruct creator; try reflexivity.
    exfalso. apply Hcreator. now exists entries0.
  - intros user login -> -> Hlogin. destruct login; try reflexivity.
    now contradiction (Hlogin s).
Qed.

Lemma unusable_creator_raises_witness :
  ~ is_object PNone
  /\ outcome (_resolve_msc (sample_plugin answer_null_creator) "77")
     = Raise AttributeError.
Proof.
  assert (~ is_object PNone) as Hnull by (intros [fields H]; discriminate H).
  split; [exact Hnull|].
  refine (proj1 (unusable_creator_raises
                   (sample_plugin answer_null_creator) "77"
                   {| status := 200;
                      json := Ok (PDict [("labels",
                                          PList [PDict [("name", PStr "proposal")]]);
                                         ("title", PStr "Example");
                                         ("user", PNone)]) |}
                   [("labels", PList [PDict [("name", PStr "proposal")]]);
                    ("title", PStr "Example"); ("user", PNone)]
                   [PDict [("name", PStr "proposal")]]
                   eq_refl eq_refl eq_refl (or_introl eq_refl) _ _)
                PNone eq_refl Hnull).
  - constructor; [|constructor]. now exists [("name", PStr "proposal")].
  - left. exists [("name", PStr "proposal")]. split; reflexivity.
Defined.
